(** * A model of the async template-literal engine (template-engine.js)

    The engine exports one function: given its parameters it returns the
    renderer [include].  The renderer resolves a template name to a file,
    keeps a cache of compiled scripts keyed by file path and guarded by a
    per-path mutex, runs the script in a fresh context under a timer and
    filters the stack of whatever error comes out.

    The model is sequential: one task runs at a time and every [await] is
    followed to its end before anything else happens.  The objects the
    engine reads under names of its own ([file_cache] under absolute paths,
    [options], the context) are finite maps over their own properties.  The
    objects a template reads and writes under keys of its choice ([locals]
    and the export bags) are plain objects that inherit from
    [Object.prototype]: see [js_read] and [js_write].  A template may throw
    an [Error] or any other value.  Paths follow the POSIX flavour of Node's
    [path] module.  The renderer is modelled as called without a
    callback. *)

From Stdlib Require Import ZArith Ascii.
From stdpp Require Import gmap strings list fin_maps pretty.

Local Open Scope Z_scope.

(** ** Strings, as the JavaScript string methods the engine calls *)

Definition LF : ascii := "010"%char.
Definition SLASH : ascii := "/"%char.

(** [s.startsWith(p)] *)
Fixpoint startsWith (s p : string) {struct p} : bool :=
  match p, s with
  | "", _ => true
  | String b p', String a s' => bool_decide (a = b) && startsWith s' p'
  | String _ _, "" => false
  end.

(** [s.endsWith(x)]: [x] is [s] itself, or it ends what follows the first
    character of [s]. *)
Fixpoint endsWith (s x : string) : bool :=
  bool_decide (s = x) ||
  match s with
  | "" => false
  | String _ s' => endsWith s' x
  end.

(** [s.includes(x)]: [x] starts at some position of [s]. *)
Fixpoint includes (s x : string) : bool :=
  startsWith s x ||
  match s with
  | "" => false
  | String _ s' => includes s' x
  end.

(** [s.toLowerCase()] on the ASCII letters; other bytes are kept. *)
Definition lower (a : ascii) : ascii :=
  let n := nat_of_ascii a in
  if (65 <=? n)%nat && (n <=? 90)%nat then ascii_of_nat (n + 32) else a.

Fixpoint toLowerCase (s : string) : string :=
  match s with
  | "" => ""
  | String a s' => String (lower a) (toLowerCase s')
  end.

(** [s.split(c)] for a one-character separator: never the empty list. *)
Fixpoint split (c : ascii) (s : string) : list string :=
  match s with
  | "" => [""]
  | String a s' =>
      if bool_decide (a = c) then "" :: split c s'
      else match split c s' with
           | l :: ls => String a l :: ls
           | [] => [String a ""]
           end
  end.

(** [parts.join(c)] *)
Fixpoint join (c : ascii) (parts : list string) : string :=
  match parts with
  | [] => ""
  | [l] => l
  | l :: ls => l +:+ String c (join c ls)
  end.

(** The first [n] characters of [s]. *)
Fixpoint take_chars (n : nat) (s : string) : string :=
  match n, s with
  | S n', String a s' => String a (take_chars n' s')
  | _, _ => ""
  end.

(** ** Node's [path] module (POSIX) *)

(** A segment that names a directory entry: not empty, not [.] and not
    [..]. *)
Definition plain_segment (seg : string) : bool :=
  negb (bool_decide (seg = "")) && negb (bool_decide (seg = "."))
  && negb (bool_decide (seg = "..")).

(** [normalizeString] without leave to climb above the root: empty and [.]
    segments vanish, [..] drops the segment before it, if any.  [done] holds
    the segments kept so far, last one first. *)
Fixpoint normalize_segments (done segs : list string) : list string :=
  match segs with
  | [] => rev done
  | seg :: rest =>
      if bool_decide (seg = "") || bool_decide (seg = ".")
      then normalize_segments done rest
      else if bool_decide (seg = "..")
      then normalize_segments (tail done) rest
      else normalize_segments (seg :: done) rest
  end.

Definition is_absolute (p : string) : bool := startsWith p "/".

(** [path.resolve(dir, name)]: arguments are taken from the right until an
    absolute one is met, then the working directory (always absolute); the
    pieces are put together with slashes and normalized. *)
Definition path_resolve (cwd dir name : string) : string :=
  let joined :=
    if is_absolute name then name
    else if is_absolute dir then dir +:+ "/" +:+ name
    else cwd +:+ "/" +:+ dir +:+ "/" +:+ name in
  "/" +:+ join SLASH (normalize_segments [] (split SLASH joined)).

(** [path.basename(p, suffix)] for a path without trailing slash: the last
    segment, without [suffix] when the segment ends with it and is more than
    it.  The empty suffix stands for a call with one argument. *)
Definition basename (p suffix : string) : string :=
  let base := List.last (split SLASH p) "" in
  if negb (bool_decide (suffix = "")) && endsWith base suffix
     && negb (bool_decide (base = suffix))
  then take_chars (String.length base - String.length suffix) base
  else base.

(** [path.dirname(p)] for a normalized absolute path. *)
Definition dirname (p : string) : string :=
  let dir := join SLASH (removelast (split SLASH p)) in
  if bool_decide (dir = "") then "/" else dir.

(** ** Values, errors and compiled templates *)

(** The functions a template can name: those the context binds, each closing
    over the render call that built the context, and [export_var], which the
    script declares for itself. *)
Inductive helper :=
| H_include | H_set | H_get | H_import_vars | H_log | H_export_var.

(** The values that travel through options, locals and export bags.
    Objects live in the heap and are named by their address, so that two
    holders of one object see each other's writes. *)
Inductive value :=
| VUndefined
| VString (s : string)
| VNumber (n : Z)
| VObject (l : nat)
| VFunction (h : helper)
| VInherited (name : string).
    (* what a plain object finds on [Object.prototype] under [name]: one of
       its methods, or for [__proto__] that prototype itself *)

(** An [Error] object: the stack is the text V8 builds, a header line
    [name: message] followed by one line per frame. *)
Record error := Error {
  err_name : string;
  err_message : string;
  err_stack : string
}.

(** What the async function made by [new vm.Script(...)] does when called:
    the program of the template's expressions over the names of its
    context.  Continuations receive what the expression evaluates to. *)
Inductive tmpl :=
| Ret (text : string)                       (* the literal is complete *)
| Throw (e : error)                          (* an expression throws an [Error] *)
| Throw_value (v : value)                    (* [throw v] of anything else *)
| Spin                                       (* synchronous code that never returns *)
| Forever                                    (* await of a promise that never settles *)
| Sleep (ms : nat) (k : tmpl)                (* await of a timer of [ms] milliseconds *)
| Var (x : string) (k : value -> tmpl)       (* the identifier [x] *)
| Typeof (x : string) (k : option value -> tmpl)   (* [typeof x]: never throws *)
| Call_set (key : string) (v : value) (k : value -> tmpl)
| Call_get (key : string) (k : value -> tmpl)
| Call_export_var (key : string) (v : value) (k : value -> tmpl)
| Await_include (name : string) (include_options : gmap string value)
    (k : value -> tmpl)
| Await_import_vars (name : string) (k : value -> tmpl)
| Call_log (msg : string) (k : value -> tmpl).

(** What a call that may throw gives back. *)
Inductive result (A : Type) :=
| Ok (a : A)
| Thrown (e : error).
Arguments Ok {A} a.
Arguments Thrown {A} e.

(** ** The engine's parameters and its host *)

Record Engine := {
  (* params, with their defaults already applied *)
  logger : string -> result value;
  extension : string;
  views : string;
  always_inject : gmap string value;
  timeout : Z;
  (* Node *)
  module_filename : string;     (* [__filename] of template-engine.js *)
  cwd : string;                 (* [process.cwd()], an absolute path *)
  vm_Script : string -> string -> result tmpl;
    (* [new vm.Script(wrapper, {filename, lineOffset: -2})] for a file's
       path and content: a SyntaxError, or the compiled template *)
  captured : string -> string
    (* the frame lines V8 attaches to an error made with the given header *)
}.

Definition mk_error (E : Engine) (name message : string) : error :=
  let header := name +:+ ": " +:+ message in
  {| err_name := name; err_message := message;
     err_stack := header +:+ captured E header |}.

(** ** State *)

(** A file as [fs.stat] and [fs.readFile] see it; [None] for a content that
    cannot be read. *)
Record File := { f_mtime : Z; f_content : option string }.

Record CacheEntry := { mtime : Z; script : tmpl }.

(** Calls into the file system and the compiler, kept for counting. *)
Inductive event := Ev_stat (p : string) | Ev_readFile (p : string)
                 | Ev_Script (p : string).

Record World := {
  file_cache : gmap string CacheEntry;
  held : gset string;                     (* paths whose mutex is locked *)
  heap : gmap nat (gmap string value);    (* objects by address *)
  logged : list string;                   (* messages the logger accepted *)
  context_index : nat;
  clock : Z;                              (* milliseconds *)
  events : list event;                    (* latest first *)
  exported : list (nat * string * value)
    (* the writes [export_var] made, as (object, key, value), latest first *)
}.

Definition set_file_cache (c : gmap string CacheEntry) (w : World) : World :=
  {| file_cache := c; held := held w; heap := heap w; logged := logged w;
     context_index := context_index w; clock := clock w; events := events w;
     exported := exported w |}.

Definition set_held (h : gset string) (w : World) : World :=
  {| file_cache := file_cache w; held := h; heap := heap w; logged := logged w;
     context_index := context_index w; clock := clock w; events := events w;
     exported := exported w |}.

Definition set_heap (h : gmap nat (gmap string value)) (w : World) : World :=
  {| file_cache := file_cache w; held := held w; heap := h; logged := logged w;
     context_index := context_index w; clock := clock w; events := events w;
     exported := exported w |}.

Definition add_logged (msg : string) (w : World) : World :=
  {| file_cache := file_cache w; held := held w; heap := heap w;
     logged := msg :: logged w;
     context_index := context_index w; clock := clock w; events := events w;
     exported := exported w |}.

Definition next_context (w : World) : World :=
  {| file_cache := file_cache w; held := held w; heap := heap w;
     logged := logged w;
     context_index := S (context_index w); clock := clock w;
     events := events w;
     exported := exported w |}.

Definition set_clock (t : Z) (w : World) : World :=
  {| file_cache := file_cache w; held := held w; heap := heap w;
     logged := logged w;
     context_index := context_index w; clock := t; events := events w;
     exported := exported w |}.

Definition record_event (ev : event) (w : World) : World :=
  {| file_cache := file_cache w; held := held w; heap := heap w;
     logged := logged w;
     context_index := context_index w; clock := clock w;
     events := ev :: events w; exported := exported w |}.

Definition add_exported (l : nat) (key : string) (val : value) (w : World)
    : World :=
  {| file_cache := file_cache w; held := held w; heap := heap w;
     logged := logged w;
     context_index := context_index w; clock := clock w;
     events := events w; exported := (l, key, val) :: exported w |}.

Definition is_Script (ev : event) : bool :=
  match ev with Ev_Script _ => true | _ => false end.

Definition is_readFile (ev : event) : bool :=
  match ev with Ev_readFile _ => true | _ => false end.

(** The compile count: how often [new vm.Script] has been called. *)
Definition compile_count (w : World) : nat :=
  length (List.filter is_Script (events w)).

Definition read_count (w : World) : nat :=
  length (List.filter is_readFile (events w)).

(** ** Errors the host raises *)

Definition QUOTE : string := String (ascii_of_nat 34) "".

(** [fs.stat] and [fs.readFile] on a missing or unreadable file. *)
Definition fs_error (E : Engine) (code syscall p : string) : error :=
  mk_error E "Error" (code +:+ ", " +:+ syscall +:+ " '" +:+ p +:+ "'").

Definition reference_error (E : Engine) (x : string) : error :=
  mk_error E "ReferenceError" (x +:+ " is not defined").

(** [path.resolve] on an argument that is not a string; the message goes on
    to describe the value received, which is left out here. *)
Definition invalid_path_error (E : Engine) : error :=
  mk_error E "TypeError"
    ("The " +:+ QUOTE +:+ "paths[0]" +:+ QUOTE
     +:+ " argument must be of type string.").

(** Node writes an integer beyond 2^32 with an underscore before every
    group of three digits. *)
Fixpoint group_digits (n : nat) (digits : list ascii) : list ascii :=
  match digits with
  | [] => []
  | d :: rest =>
      match n, rest with
      | O, _ :: _ => d :: "_"%char :: group_digits 2 rest
      | O, [] => [d]
      | S n', _ => d :: group_digits n' rest
      end
  end.

Definition received_text (n : Z) : string :=
  if Z.abs n <=? 4294967296 then pretty n
  else
    let digits :=
      String.string_of_list_ascii
        (rev (group_digits 2 (rev (String.list_ascii_of_string (pretty (Z.abs n)))))) in
    if n <? 0 then "-" +:+ digits else digits.

(** [runInNewContext] on a timeout that is not a strictly positive 32-bit
    integer.  The header of the stack carries Node's error code. *)
Definition timeout_range_error (E : Engine) : error :=
  let message :=
    "The value of " +:+ QUOTE +:+ "options.timeout" +:+ QUOTE
    +:+ " is out of range. It must be >= 1 && <= 4294967295. Received "
    +:+ received_text (timeout E) in
  let header := "RangeError [ERR_OUT_OF_RANGE]: " +:+ message in
  {| err_name := "RangeError"; err_message := message;
     err_stack := header +:+ captured E header |}.

Definition set_property_error (E : Engine) (key : string) : error :=
  mk_error E "TypeError"
    ("Cannot set properties of undefined (setting '" +:+ key +:+ "')").

Definition read_property_error (E : Engine) (key : string) : error :=
  mk_error E "TypeError"
    ("Cannot read properties of undefined (reading '" +:+ key +:+ "')").

Definition not_a_function_error (E : Engine) (callee : string) : error :=
  mk_error E "TypeError" (callee +:+ " is not a function").

(** The error of line 76, made when the timer fires. *)
Definition timeout_error (E : Engine) (filepath : string) : error :=
  mk_error E "Error" ("Rendering " +:+ filepath +:+ " timed out").

(** ** [load_template] (lines 17-41) *)

Inductive loaded :=
| Loaded                  (* the promise resolves *)
| Failed (e : error)      (* the promise rejects *)
| Waiting.                (* the mutex is held: [lock()] has not resolved *)

(** [new_template || mtime.valueOf() !== file_cache[filepath].mtime.valueOf()] *)
Definition new_template (cache : gmap string CacheEntry) (filepath : string) : bool :=
  match cache !! filepath with None => true | Some _ => false end.

Definition must_compile (cache : gmap string CacheEntry) (filepath : string)
    (current : Z) : bool :=
  new_template cache filepath ||
  match cache !! filepath with
  | Some entry => negb (current =? mtime entry)
  | None => true
  end.

Definition load_message (fresh_entry : bool) (filepath : string) : string :=
  (if fresh_entry then "Loaded" else "Reloaded") +:+ " template " +:+ filepath.

(** The [try] block. *)
Definition load_template_body (E : Engine) (fs : gmap string File)
    (filepath : string) (w : World) : result unit * World :=
  let w := record_event (Ev_stat filepath) w in
  match fs !! filepath with
  | None => (Thrown (fs_error E "ENOENT: no such file or directory" "stat" filepath), w)
  | Some file =>
      let fresh_entry := new_template (file_cache w) filepath in
      if must_compile (file_cache w) filepath (f_mtime file) then
        let w := record_event (Ev_readFile filepath) w in
        match f_content file with
        | None => (Thrown (fs_error E "EACCES: permission denied" "open" filepath), w)
        | Some content =>
            let w := set_file_cache (delete filepath (file_cache w)) w in
            let w := record_event (Ev_Script filepath) w in
            match vm_Script E filepath content with
            | Thrown e => (Thrown e, w)
            | Ok compiled =>
                let w := set_file_cache
                           (<[filepath := {| mtime := f_mtime file;
                                             script := compiled |}]>
                              (file_cache w)) w in
                let msg := load_message fresh_entry filepath in
                match logger E msg with
                | Thrown e => (Thrown e, w)
                | Ok _ => (Ok tt, add_logged msg w)
                end
            end
        end
      else (Ok tt, w)
  end.

(** [lock()], the [try] block, and [unlock()] in the [finally] clause. *)
Definition load_template (E : Engine) (fs : gmap string File)
    (filepath : string) (w : World) : loaded * World :=
  if bool_decide (filepath ∈ held w) then (Waiting, w)
  else
    let w := set_held ({[filepath]} ∪ held w) w in
    let '(r, w) := load_template_body E fs filepath w in
    let w := set_held (held w ∖ {[filepath]}) w in
    (match r with Ok _ => Loaded | Thrown e => Failed e end, w).

(** ** The error filter of the [catch] clause (lines 91-96) *)

(** [path.basename(__filename)] *)
Definition engine_file (E : Engine) : string := basename (module_filename E) "".

(** The lines the filter drops when they are not the first. *)
Definition engine_frame (E : Engine) (line : string) : bool :=
  includes (toLowerCase line) (engine_file E)
  || includes line "Script.runInContext"
  || includes line "Script.runInNewContext".

Definition keep_line (E : Engine) (index : nat) (line : string) : bool :=
  bool_decide (index = 0%nat) || negb (engine_frame E line).

(** [lines.filter((line, index) => ...)], from index [i] on. *)
Fixpoint filter_indexed (f : nat -> string -> bool) (i : nat)
    (lines : list string) : list string :=
  match lines with
  | [] => []
  | line :: rest =>
      if f i line then line :: filter_indexed f (S i) rest
      else filter_indexed f (S i) rest
  end.

Definition normalize_stack (E : Engine) (stack : string) : string :=
  join LF (filter_indexed (keep_line E) 0 (split LF stack)).

Definition normalize (E : Engine) (e : error) : error :=
  {| err_name := err_name e; err_message := err_message e;
     err_stack := normalize_stack E (err_stack e) |}.

(** ** The renderer [include] (lines 50-102) *)

(** How a promise looks to the one who awaits it. *)
Inductive settled (A : Type) :=
| Resolved (a : A)
| Rejected (e : error)
| Threw (v : value)   (* rejected with a value that is no [Error] *)
| Pending       (* not settled when the nearest timer fires *)
| Hang          (* synchronous code never gave the event loop back *)
| Blocked       (* waiting for a mutex, with no timer started yet *)
| OutOfFuel.    (* the model's bound on nested renders is used up *)
Arguments Resolved {A} a.
Arguments Rejected {A} e.
Arguments Threw {A} v.
Arguments Pending {A}.
Arguments Hang {A}.
Arguments Blocked {A}.
Arguments OutOfFuel {A}.

(** Line 52: the extension and the directory of this call, as values. *)
Definition settings_of (E : Engine) (w : World) (options : gmap string value)
    : value * value :=
  match options !! "settings" with
  | None | Some VUndefined => (VString (extension E), VString (views E))
  | Some (VObject l) =>
      let o := default ∅ (heap w !! l) in
      (default VUndefined (o !! "view engine"), default VUndefined (o !! "views"))
  | Some _ => (VUndefined, VUndefined)
  end.

(** The text [endsWith] and the template literal make of the extension.  An
    object is taken to have no [toString] of its own; the text of a function
    is its source, which the model does not have. *)
Definition extension_text (v : value) : option string :=
  match v with
  | VString s => Some s
  | VUndefined => Some "undefined"
  | VNumber n => Some (pretty n)
  | VObject _ => Some "[object Object]"
  | VFunction _ | VInherited _ => None
  end.

(** The file name handed to [path.resolve] on line 53 (and on line 45). *)
Definition with_extension (filename ext : string) : string :=
  if endsWith filename ext then filename else filename +:+ "." +:+ ext.

(** Line 53.  [path.resolve] looks at the directory only when the file name
    is not absolute, and throws if it is not a string then.  An extension
    that is a function is turned into its source text by JavaScript; the
    model does not follow that and reports the call as failed. *)
Definition template_path (E : Engine) (settings : value * value)
    (filename : string) : result (string * string) :=
  match extension_text (fst settings) with
  | Some ext =>
      let name := with_extension filename ext in
      match snd settings with
      | VString dir => Ok (path_resolve (cwd E) dir name, ext)
      | _ =>
          if is_absolute name then Ok (path_resolve (cwd E) "" name, ext)
          else Thrown (invalid_path_error E)
      end
  | None => Thrown (invalid_path_error E)
  end.

(** Lines 55-73: later entries of the object literal replace earlier ones,
    so the outermost insertion below is the last entry of the literal. *)
Definition make_context (E : Engine) (options : gmap string value)
    (filepath ext : string) : gmap string value :=
  <["__dirname" := VString (dirname filepath)]>
  (<["__filename" := VString filepath]>
  (<["__template" := VString (basename filepath ("." +:+ ext))]>
  (<["log" := VFunction H_log]>
  (<["import_vars" := VFunction H_import_vars]>
  (<["get" := VFunction H_get]>
  (<["set" := VFunction H_set]>
  (<["include" := VFunction H_include]>
  (options ∪ always_inject E)))))))).

(** What an identifier of the template denotes: the script's own
    [const export_var] first, then the properties of the context. *)
Definition lookup_name (ctx : gmap string value) (x : string) : option value :=
  if bool_decide (x = "export_var") then Some (VFunction H_export_var)
  else ctx !! x.

(** ** Plain objects

    [locals] (line 54) and [__exports] (line 65) are made by [{}]: they
    inherit from [Object.prototype].  A map holds the object's own
    properties; since an assignment to [__proto__] never makes an own
    property, the map's entry under that key stands for the prototype the
    object was given by such an assignment, if any. *)

Definition object_prototype_names : list string :=
  ["constructor"; "__defineGetter__"; "__defineSetter__"; "hasOwnProperty";
   "__lookupGetter__"; "__lookupSetter__"; "isPrototypeOf";
   "propertyIsEnumerable"; "toString"; "valueOf"; "__proto__";
   "toLocaleString"].

Definition is_object (v : value) : bool :=
  match v with
  | VObject _ | VFunction _ | VInherited _ => true
  | _ => false
  end.

(** What [Object.prototype] gives under [key]. *)
Definition inherited (key : string) : value :=
  if bool_decide (key ∈ object_prototype_names) then VInherited key
  else VUndefined.

(** [o[key] = val]: the setter of [__proto__] replaces the prototype when
    [val] is an object and does nothing otherwise. *)
Definition js_write (key : string) (val : value) (o : gmap string value)
    : gmap string value :=
  if bool_decide (key = "__proto__")
  then (if is_object val then <[key := val]> o else o)
  else <[key := val]> o.

(** [o[key]]: an own property, else what the prototype has.  A prototype
    that was replaced by an object of the heap is searched for its own
    properties and then taken to end in [Object.prototype]; a prototype that
    is a function is not searched. *)
Definition js_read (h : gmap nat (gmap string value)) (key : string)
    (o : gmap string value) : value :=
  match o !! key with
  | Some v => v
  | None =>
      match o !! "__proto__" with
      | Some (VObject l) =>
          match default ∅ (h !! l) !! key with
          | Some v => v
          | None => inherited key
          end
      | _ => inherited key
      end
  end.

(** [set: (key, val) => { locals[key] = val; return "" }] *)
Definition set_ (key : string) (val : value) (locals : gmap string value)
    : value * gmap string value :=
  (VString "", js_write key val locals).

(** [get: (key) => locals[key]] *)
Definition get_ (h : gmap nat (gmap string value)) (key : string)
    (locals : gmap string value) : value :=
  js_read h key locals.

(** [export_var = (key, val) => {__exports[key] = val; return ""}] in the
    script's scope, where [__exports] is a property of the context or
    nothing.  The script is not strict: a property written on a string or
    a number is dropped silently.  Properties of function objects are not
    followed. *)
Definition export_var (E : Engine) (ctx : gmap string value)
    (key : string) (val : value) (h : gmap nat (gmap string value))
    : result (value * gmap nat (gmap string value)) :=
  match ctx !! "__exports" with
  | None => Thrown (reference_error E "__exports")
  | Some VUndefined => Thrown (set_property_error E key)
  | Some (VObject l) =>
      Ok (VString "", <[l := js_write key val (default ∅ (h !! l))]> h)
  | Some _ => Ok (VString "", h)
  end.

(** The object [export_var] writes to, if it is one of the heap. *)
Definition export_target (ctx : gmap string value) : option nat :=
  match ctx !! "__exports" with
  | Some (VObject l) => Some l
  | _ => None
  end.

Definition record_export (ctx : gmap string value) (key : string)
    (val : value) (w : World) : World :=
  match export_target ctx with
  | Some l => add_exported l key val w
  | None => w
  end.

(** [{...options, ...include_options}], the options of a nested [include]:
    the entries of [include_options] win. *)
Definition nested_options (options include_options : gmap string value)
    : gmap string value :=
  include_options ∪ options.

(** [{...options, __exports}], the options [import_vars] renders with;
    [l] is the address of the new object. *)
Definition import_options (options : gmap string value) (l : nat)
    : gmap string value :=
  <["__exports" := VObject l]> options.

(** [setTimeout] takes a delay outside 1 .. 2^31-1 for 1. *)
Definition timer_delay (t : Z) : Z :=
  if (1 <=? t) && (t <=? 2147483647) then t else 1.

(** [runInNewContext] wants its [timeout] strictly positive and of 32 bits. *)
Definition vm_timeout_ok (t : Z) : bool := (1 <=? t) && (t <=? 4294967295).

(** Running a compiled template: [inc] is the renderer for the nested
    calls, [deadline] the time at which the earliest timer among this render
    and those around it fires.  A timer awaited by the template that is due
    at the deadline or later loses against that timer, which was set
    earlier. *)
Fixpoint exec (E : Engine)
    (inc : string -> gmap string value -> option Z -> World
           -> settled string * World)
    (ctx options : gmap string value) (deadline : Z)
    (t : tmpl) (locals : gmap string value) (w : World)
    : settled string * World :=
  match t with
  | Ret text => (Resolved text, w)
  | Throw e => (Rejected e, w)
  | Throw_value v => (Threw v, w)
  | Spin => (Hang, w)
  | Forever => (Pending, w)
  | Sleep ms k =>
      if clock w + Z.of_nat ms <? deadline
      then exec E inc ctx options deadline k locals
             (set_clock (clock w + Z.of_nat ms) w)
      else (Pending, w)
  | Var x k =>
      match lookup_name ctx x with
      | Some v => exec E inc ctx options deadline (k v) locals w
      | None => (Rejected (reference_error E x), w)
      end
  | Typeof x k => exec E inc ctx options deadline (k (lookup_name ctx x)) locals w
  | Call_set key v k =>
      let '(r, locals') := set_ key v locals in
      exec E inc ctx options deadline (k r) locals' w
  | Call_get key k =>
      exec E inc ctx options deadline (k (get_ (heap w) key locals)) locals w
  | Call_export_var key v k =>
      match export_var E ctx key v (heap w) with
      | Ok (r, h) =>
          exec E inc ctx options deadline (k r) locals
            (record_export ctx key v (set_heap h w))
      | Thrown e => (Rejected e, w)
      end
  | Await_include name include_options k =>
      (* include(include_filename, {...options, ...include_options}) *)
      match inc name (nested_options options include_options) (Some deadline) w with
      | (Resolved text, w') =>
          exec E inc ctx options deadline (k (VString text)) locals w'
      | (Rejected e, w') => (Rejected e, w')
      | (Threw v, w') => (Threw v, w')
      | (Pending, w') | (Blocked, w') => (Pending, w')
      | (Hang, w') => (Hang, w')
      | (OutOfFuel, w') => (OutOfFuel, w')
      end
  | Await_import_vars name k =>
      (* const __exports = {}; await include(template, {...options, __exports}) *)
      let l := fresh (dom (heap w)) in
      let w1 := set_heap (<[l := ∅]> (heap w)) w in
      match inc name (import_options options l) (Some deadline) w1 with
      | (Resolved _, w') =>
          exec E inc ctx options deadline (k (VObject l)) locals w'
      | (Rejected e, w') => (Rejected e, w')
      | (Threw v, w') => (Threw v, w')
      | (Pending, w') | (Blocked, w') => (Pending, w')
      | (Hang, w') => (Hang, w')
      | (OutOfFuel, w') => (OutOfFuel, w')
      end
  | Call_log msg k =>
      match logger E msg with
      | Ok r => exec E inc ctx options deadline (k r) locals (add_logged msg w)
      | Thrown e => (Rejected e, w)
      end
  end.

(** Lines 75-85, once the template is loaded: the timer is set, then the
    script is run and the function it evaluates to is called.  [outer] is
    the deadline of the renders around this one, if any; this render's own
    timer decides only when it is due strictly before that.  The [timeout]
    option of [runInNewContext] bounds the evaluation of the wrapper alone,
    which defines two functions and is taken to finish in time; the call of
    the function it evaluates to is not under that option. *)
Definition run_script (E : Engine)
    (inc : string -> gmap string value -> option Z -> World
           -> settled string * World)
    (ctx options : gmap string value) (filepath : string)
    (outer : option Z) (w : World) : settled string * World :=
  let own := clock w + timer_delay (timeout E) in
  let deadline := match outer with Some d => Z.min d own | None => own end in
  let own_first := match outer with Some d => own <? d | None => true end in
  match file_cache w !! filepath with
  | None => (Rejected (read_property_error E "script"), w)
  | Some entry =>
      let w := next_context w in
      if vm_timeout_ok (timeout E) then
        match exec E inc ctx options deadline (script entry) ∅ w with
        | (Pending, w') =>
            if own_first
            then (Rejected (timeout_error E filepath), set_clock own w')
            else (Pending, w')
        | r => r
        end
      else (Rejected (timeout_range_error E), w)
  end.

(** Lines 90-101 on a value that is no [Error]: [error.stack] is read and
    [split] is called on it.  That throws a TypeError of its own inside the
    [catch] clause unless the value is an object whose [stack] is a string,
    which is filtered and written back. *)
Definition catch_value (E : Engine) (v : value) (w : World)
    : settled string * World :=
  match v with
  | VUndefined => (Rejected (read_property_error E "stack"), w)
  | VObject l =>
      let o := default ∅ (heap w !! l) in
      match js_read (heap w) "stack" o with
      | VString stack =>
          (Threw v,
           set_heap (<[l := js_write "stack" (VString (normalize_stack E stack)) o]>
                       (heap w)) w)
      | VUndefined => (Rejected (read_property_error E "split"), w)
      | _ => (Rejected (not_a_function_error E "error.stack.split"), w)
      end
  | _ => (Rejected (read_property_error E "split"), w)
  end.

(** The renderer.  An error thrown inside the [try] goes through the
    filter of the [catch] clause; another value goes through [catch_value].
    [fuel] bounds the depth of nested renders. *)
Fixpoint include (E : Engine) (fs : gmap string File) (fuel : nat)
    (filename : string) (options : gmap string value)
    (outer : option Z) (w : World) : settled string * World :=
  match fuel with
  | O => (OutOfFuel, w)
  | S fuel' =>
      match template_path E (settings_of E w options) filename with
      | Thrown e => (Rejected (normalize E e), w)
      | Ok (filepath, ext) =>
          let ctx := make_context E options filepath ext in
          match load_template E fs filepath w with
          | (Waiting, w) => (Blocked, w)
          | (Failed e, w) => (Rejected (normalize E e), w)
          | (Loaded, w) =>
              match run_script E (include E fs fuel') ctx options filepath outer w with
              | (Rejected e, w') => (Rejected (normalize E e), w')
              | (Threw v, w') => catch_value E v w'
              | r => r
              end
          end
      end
  end.

(** A render asked for by the engine's caller: no render around it. *)
Definition render (E : Engine) (fs : gmap string File) (fuel : nat)
    (filename : string) (options : gmap string value) (w : World)
    : settled string * World :=
  include E fs fuel filename options None w.

(** Lines 43-48: the templates named in [params.preload] are loaded when
    the engine is made.  The promise of a load is neither awaited nor
    caught: a load that fails is an unhandled rejection, which ends the
    Node process. *)
Inductive preloaded :=
| Preloaded (w : World)
| Unhandled (e : error) (w : World)   (* the process ends with [e] *)
| Stalled (w : World).                (* a load waits for a mutex *)

Fixpoint preload (E : Engine) (fs : gmap string File)
    (names : list string) (w : World) : preloaded :=
  match names with
  | [] => Preloaded w
  | filename :: rest =>
      match load_template E fs
              (path_resolve (cwd E) (views E)
                 (with_extension filename (extension E))) w with
      | (Loaded, w') => preload E fs rest w'
      | (Failed e, w') => Unhandled e w'
      | (Waiting, w') => Stalled w'
      end
  end.

(** ** An engine and some template files to run the model on

    The engine of the README's [server.js] with its views under
    [/srv/app/views], and a host that knows the files below (JavaScript
    strings are written with single quotes). *)

(** What a template literal makes of a string or a number. *)
Definition text_of (v : value) : string :=
  match v with
  | VString s => s
  | VNumber n => pretty n
  | _ => "undefined"
  end.

(** Lines 29-31: the file's content stands between a line break and the
    closing line of the literal, each followed by the wrapper's 24 spaces of
    indentation; [body] is what the content evaluates to. *)
Definition literal (body : string) : string :=
  let indent := "                        " in
  String LF (indent +:+ body +:+ String LF indent).

Definition engine_path : string :=
  "/srv/app/node_modules/async-template-literal-engine/template-engine.js".

(** views/error.template of the README. *)
Definition error_template : string :=
  join LF ["Let's throw an error!"; "${(() => {";
           "    throw new Error('whoops :/')"; "})()}"].

(** The stack V8 records for that error: the template's two frames, then
    the frames of the promise executor and of [include]. *)
Definition whoops : error :=
  {| err_name := "Error"; err_message := "whoops :/";
     err_stack := join LF
       ["Error: whoops :/";
        "    at /srv/app/views/error.template:3:11";
        "    at /srv/app/views/error.template:4:3";
        "    at " +:+ engine_path +:+ ":84:20";
        "    at new Promise (<anonymous>)";
        "    at include (" +:+ engine_path +:+ ":75:28)"] |}.

(** views/strings_english.template of the README. *)
Definition strings_template : string :=
  join LF ["${export_var('part1', 'Hello, ')}"; "${export_var('part2', '!')}"].

Definition strings_program : tmpl :=
  Call_export_var "part1" (VString "Hello, ") (fun r1 =>
  Call_export_var "part2" (VString "!") (fun r2 =>
  Ret (literal (text_of r1 +:+ String LF (text_of r2))))).

(** A template that imports the strings and keeps them with [set]. *)
Definition importer_template : string :=
  "${set('strings', await import_vars('strings_english'))}".

Definition importer_program : tmpl :=
  Await_import_vars "strings_english" (fun bag =>
  Call_set "strings" bag (fun r =>
  Ret (literal (text_of r)))).

(** A parent that includes a child with one override, and the child. *)
Definition parent_template : string := "${await include('child', {x: 1})}".

Definition parent_program : tmpl :=
  Await_include "child" {[ "x" := VNumber 1 ]} (fun r =>
  Ret (literal (text_of r))).

Definition child_template : string := "${x},${y}".

Definition child_program : tmpl :=
  Var "x" (fun x => Var "y" (fun y =>
  Ret (literal (text_of x +:+ "," +:+ text_of y)))).

(** A template whose expression loops, and one that waits for ever. *)
Definition spin_template : string := "${(() => { while (true) {} })()}".
Definition wait_template : string := "${await new Promise(() => {})}".

(** A template that is not a template literal. *)
Definition broken_template : string := "${)}".

Definition syntax_error : error :=
  {| err_name := "SyntaxError"; err_message := "Unexpected token ')'";
     err_stack := "SyntaxError: Unexpected token ')'" |}.

(** The host's compiler on these files; it is asked about no other. *)
Definition demo_Script (filename content : string) : result tmpl :=
  if bool_decide (content = error_template) then Ok (Throw whoops)
  else if bool_decide (content = strings_template) then Ok strings_program
  else if bool_decide (content = importer_template) then Ok importer_program
  else if bool_decide (content = parent_template) then Ok parent_program
  else if bool_decide (content = child_template) then Ok child_program
  else if bool_decide (content = spin_template) then Ok Spin
  else if bool_decide (content = wait_template) then Ok Forever
  else Thrown syntax_error.

Definition demo_engine : Engine :=
  {| logger := fun _ => Ok (VString "");
     extension := "template";
     views := "/srv/app/views";
     always_inject := {[ "lang" := VString "english" ]};
     timeout := 10000;
     module_filename := engine_path;
     cwd := "/srv/app";
     vm_Script := demo_Script;
     captured := fun _ => "" |}.

Definition demo_file (content : string) : File :=
  {| f_mtime := 1700000000000; f_content := Some content |}.

Definition demo_fs : gmap string File :=
  list_to_map
    [("/srv/app/views/error.template", demo_file error_template);
     ("/srv/app/views/strings_english.template", demo_file strings_template);
     ("/srv/app/views/hello.template", demo_file importer_template);
     ("/srv/app/views/parent.template", demo_file parent_template);
     ("/srv/app/views/child.template", demo_file child_template);
     ("/srv/app/views/spin.template", demo_file spin_template);
     ("/srv/app/views/wait.template", demo_file wait_template);
     ("/srv/app/views/broken.template", demo_file broken_template)].

(** The state of a process that has rendered nothing yet. *)
Definition start : World :=
  {| file_cache := ∅; held := ∅; heap := ∅; logged := [];
     context_index := 0; clock := 0; events := []; exported := [] |}.

(** The error of [error_template] as the README shows it. *)
Definition whoops_surfaced : error :=
  {| err_name := "Error"; err_message := "whoops :/";
     err_stack := join LF
       ["Error: whoops :/";
        "    at /srv/app/views/error.template:3:11";
        "    at /srv/app/views/error.template:4:3";
        "    at new Promise (<anonymous>)"] |}.

(** ** More engines and states to run the model on *)

Definition log_failure : error :=
  {| err_name := "Error"; err_message := "log sink closed";
     err_stack := "Error: log sink closed" |}.

(** The engine of the README with a logger that throws. *)
Definition failing_logger_engine : Engine :=
  {| logger := fun _ => Thrown log_failure;
     extension := extension demo_engine;
     views := views demo_engine;
     always_inject := always_inject demo_engine;
     timeout := timeout demo_engine;
     module_filename := module_filename demo_engine;
     cwd := cwd demo_engine;
     vm_Script := vm_Script demo_engine;
     captured := captured demo_engine |}.

(** The engine of the README made with [timeout: 0]. *)
Definition zero_timeout_engine : Engine :=
  {| logger := logger demo_engine;
     extension := extension demo_engine;
     views := views demo_engine;
     always_inject := always_inject demo_engine;
     timeout := 0;
     module_filename := module_filename demo_engine;
     cwd := cwd demo_engine;
     vm_Script := vm_Script demo_engine;
     captured := captured demo_engine |}.

(** A process whose cache holds an older version of the broken template. *)
Definition cached_old : World :=
  set_file_cache
    {[ "/srv/app/views/broken.template" :=
         {| mtime := 1600000000000; script := Ret (literal "old") |} ]}
    start.

(** A template that includes the strings template, and one that includes
    the template that waits for ever. *)
Definition collect_template : string := "${await include('strings_english')}".

Definition collect_program : tmpl :=
  Await_include "strings_english" ∅ (fun _ => Ret (literal "")).

Definition outer_wait_template : string := "${await include('wait')}".

Definition outer_wait_program : tmpl :=
  Await_include "wait" ∅ (fun r => Ret (literal (text_of r))).

Definition nesting_Script (filename content : string) : result tmpl :=
  if bool_decide (content = collect_template) then Ok collect_program
  else if bool_decide (content = outer_wait_template) then Ok outer_wait_program
  else demo_Script filename content.

Definition nesting_engine : Engine :=
  {| logger := logger demo_engine;
     extension := extension demo_engine;
     views := views demo_engine;
     always_inject := always_inject demo_engine;
     timeout := timeout demo_engine;
     module_filename := module_filename demo_engine;
     cwd := cwd demo_engine;
     vm_Script := nesting_Script;
     captured := captured demo_engine |}.

Definition nesting_fs : gmap string File :=
  <["/srv/app/views/collect.template" := demo_file collect_template]>
  (<["/srv/app/views/outer_wait.template" := demo_file outer_wait_template]>
   demo_fs).

(** The options of a render that Express asks for when the application has
    set its views directory and no view engine; the settings object sits at
    address 0. *)
Definition express_world : World :=
  set_heap {[ 0%nat := {[ "views" := VString "/srv/app/views" ]} ]} start.

Definition express_options : gmap string value :=
  {[ "settings" := VObject 0 ]}.

(** ** A host that records frames, and templates for the corner cases *)

(** The frames V8 attaches to the errors made inside the engine: the one of
    line 76 is made in the timer's callback, a TypeError of the [catch]
    clause on line 91. *)
Definition v8_captured (header : string) : string :=
  if startsWith header "Error: Rendering " then
    String LF
      (join LF
         ["    at Timeout._onTimeout (" +:+ engine_path +:+ ":76:37)";
          "    at listOnTimeout (node:internal/timers:573:17)";
          "    at process.processTimers (node:internal/timers:514:7)"])
  else if startsWith header "TypeError: Cannot read properties" then
    String LF ("    at include (" +:+ engine_path +:+ ":91:37)")
  else "".

(** A template that throws a string. *)
Definition throws_text_template : string := "${(() => { throw 'whoops' })()}".

Definition throws_text_program : tmpl := Throw_value (VString "whoops").

(** A template that exports under the key [__proto__], and one that
    imports it and keeps the object. *)
Definition proto_template : string := "${export_var('__proto__', 'x')}".

Definition proto_program : tmpl :=
  Call_export_var "__proto__" (VString "x") (fun r => Ret (literal (text_of r))).

Definition proto_importer_template : string :=
  "${set('bag', await import_vars('proto'))}".

Definition proto_importer_program : tmpl :=
  Await_import_vars "proto" (fun bag =>
  Call_set "bag" bag (fun r => Ret (literal (text_of r)))).

(** A template that asks whether a key it never set is undefined. *)
Definition constructor_template : string :=
  "${get('constructor') === undefined}".

Definition constructor_program : tmpl :=
  Call_get "constructor" (fun v =>
  Ret (literal (match v with VUndefined => "true" | _ => "false" end))).

(** A template that writes the name [x]. *)
Definition x_template : string := "${x}".

Definition x_program : tmpl := Var "x" (fun v => Ret (literal (text_of v))).

Definition traced_Script (filename content : string) : result tmpl :=
  if bool_decide (content = throws_text_template) then Ok throws_text_program
  else if bool_decide (content = x_template) then Ok x_program
  else if bool_decide (content = proto_template) then Ok proto_program
  else if bool_decide (content = proto_importer_template)
  then Ok proto_importer_program
  else if bool_decide (content = constructor_template)
  then Ok constructor_program
  else demo_Script filename content.

Definition traced_engine : Engine :=
  {| logger := logger demo_engine;
     extension := extension demo_engine;
     views := views demo_engine;
     always_inject := always_inject demo_engine;
     timeout := timeout demo_engine;
     module_filename := module_filename demo_engine;
     cwd := cwd demo_engine;
     vm_Script := traced_Script;
     captured := v8_captured |}.

Definition traced_fs : gmap string File :=
  <["/srv/app/views/throws_text.template" := demo_file throws_text_template]>
  (<["/srv/app/views/x.template" := demo_file x_template]>
  (<["/srv/app/views/proto.template" := demo_file proto_template]>
  (<["/srv/app/views/proto_importer.template" :=
       demo_file proto_importer_template]>
  (<["/srv/app/views/constructor.template" := demo_file constructor_template]>
   demo_fs)))).

(** ** Predicates used to state the results *)

(** No character of [s] is [c]. *)
Fixpoint free_of (c : ascii) (s : string) : bool :=
  match s with
  | "" => true
  | String a s' => negb (bool_decide (a = c)) && free_of c s'
  end.

(** A relative path in normal form: plain segments with one slash between
    them, no slash at either end. *)
Definition plain_path (p : string) : bool :=
  forallb plain_segment (split SLASH p).

(** The reading of the resolution rule that puts every name under the views
    directory: [dir/name], with the extension where [endsWith] misses it. *)
Definition resolves_under_views (E : Engine) (dir ext name : string) : Prop :=
  template_path E (VString ext, VString dir) name =
    Ok (dir +:+ "/" +:+ with_extension name ext, ext).

(** How often the compiler has been called on [filepath]. *)
Definition compiles_of (filepath : string) (w : World) : nat :=
  length (List.filter
            (fun ev => match ev with
                       | Ev_Script p => bool_decide (p = filepath)
                       | _ => false
                       end) (events w)).

(** Two renders of one template in a row, with the file system as it is,
    call the compiler on the template's file once at most. *)
Definition renders_compile_at_most_once (E : Engine) (fs : gmap string File)
    (fuel : nat) (filename : string) (options : gmap string value)
    (filepath : string) (w : World) : Prop :=
  (compiles_of filepath
     (snd (render E fs fuel filename options
             (snd (render E fs fuel filename options w))))
   <= S (compiles_of filepath w))%nat.

(** The cache holds an entry for [filepath] with modification time [m], and
    the compiler has been called [c] times on the file. *)
Definition settled_entry (filepath : string) (m : Z) (c : nat) (w : World)
    : Prop :=
  must_compile (file_cache w) filepath m = false
  /\ compiles_of filepath w = c.

(** The names the context literal binds after the two spreads. *)
Definition engine_names : list string :=
  ["include"; "set"; "get"; "import_vars"; "log";
   "__template"; "__filename"; "__dirname"].


(** The object those calls leave behind when they start from [bag]: later
    bindings replace earlier ones of the same key. *)
Definition bag_after (bindings : list (string * value))
    (bag : gmap string value) : gmap string value :=
  foldl (fun m kv => js_write (fst kv) (snd kv) m) bag bindings.





(** The file [params.preload] names with [name] (line 45). *)
Definition preload_path (E : Engine) (name : string) : string :=
  path_resolve (cwd E) (views E) (with_extension name (extension E)).

(** The file of a name can be read and compiled, and its mutex is free. *)
Definition loadable (E : Engine) (fs : gmap string File) (w : World)
    (name : string) : Prop :=
  (preload_path E name ∉ held w)
  /\ exists file content compiled,
       fs !! preload_path E name = Some file
       /\ f_content file = Some content
       /\ vm_Script E (preload_path E name) content = Ok compiled.


(** * Results *)

(** ** Strings *)

Lemma app_cons (a : ascii) (s t : string) :
  String a s +:+ t = String a (s +:+ t).
Proof. reflexivity. Qed.

Lemma app_empty_l (s : string) : "" +:+ s = s.
Proof. reflexivity. Qed.

Lemma app_empty_r (s : string) : s +:+ "" = s.
Proof. induction s as [|a s IH]; [done|]. by rewrite app_cons, IH. Qed.

Lemma app_assoc_str (s t u : string) : (s +:+ t) +:+ u = s +:+ t +:+ u.
Proof. induction s as [|a s IH]; [done|]. by rewrite !app_cons, IH. Qed.

Lemma split_not_nil (c : ascii) (s : string) : split c s <> [].
Proof.
  destruct s as [|a s]; simpl; [done|].
  case_bool_decide; [done|]. by destruct (split c s).
Qed.

Lemma split_cons_sep (c : ascii) (s : string) :
  split c (String c s) = "" :: split c s.
Proof. simpl. by rewrite bool_decide_eq_true_2. Qed.

Lemma split_cons_other (c a : ascii) (s : string) :
  a <> c ->
  split c (String a s) =
    String a (List.hd "" (split c s)) :: List.tl (split c s).
Proof.
  intros Hne. simpl. rewrite bool_decide_eq_false_2 by done.
  pose proof (split_not_nil c s). by destruct (split c s).
Qed.


Lemma join_cons (c : ascii) (l : string) (ls : list string) :
  ls <> [] -> join c (l :: ls) = l +:+ String c (join c ls).
Proof. by destruct ls. Qed.

Lemma join_split (c : ascii) (s : string) : join c (split c s) = s.
Proof.
  induction s as [|a s IH]; [done|].
  pose proof (split_not_nil c s) as Hnil.
  destruct (decide (a = c)) as [->|Hne].
  - rewrite split_cons_sep, join_cons by done. by rewrite IH.
  - rewrite split_cons_other by done.
    destruct (split c s) as [|l ls]; [done|]. simpl List.hd. simpl List.tl.
    destruct ls as [|l' ls].
    + simpl in *. by rewrite IH.
    + rewrite join_cons by done. rewrite join_cons in IH by done.
      by rewrite app_cons, IH.
Qed.

Lemma split_of_free (c : ascii) (s : string) :
  free_of c s = true -> split c s = [s].
Proof.
  induction s as [|a s IH]; [done|]. simpl.
  intros [Ha Hs]%andb_prop. apply negb_true_iff in Ha. rewrite Ha.
  by rewrite IH.
Qed.

Lemma split_app_sep (c : ascii) (s t : string) :
  split c (s +:+ String c t) = split c s ++ split c t.
Proof.
  induction s as [|a s IH].
  - by rewrite app_empty_l, split_cons_sep.
  - rewrite app_cons. destruct (decide (a = c)) as [->|Hne].
    + by rewrite !split_cons_sep, IH.
    + rewrite !split_cons_other, IH by done.
      pose proof (split_not_nil c s). by destruct (split c s).
Qed.


Lemma endsWith_app (p x : string) : endsWith (p +:+ x) x = true.
Proof.
  induction p as [|a p IH].
  - rewrite app_empty_l. destruct x; cbn [endsWith]; by rewrite bool_decide_eq_true_2.
  - rewrite app_cons. simpl. rewrite IH. apply orb_true_r.
Qed.

Lemma endsWith_inv (s x : string) :
  endsWith s x = true -> exists p, s = p +:+ x.
Proof.
  induction s as [|a s IH]; simpl.
  - rewrite orb_false_r. intros ->%bool_decide_eq_true. by exists "".
  - intros [->%bool_decide_eq_true | H]%orb_prop; [by exists ""|].
    destruct (IH H) as [p ->]. by exists (String a p).
Qed.

(** A name that ends with [a ++ b] ends with [b]. *)
Lemma endsWith_weaken (s a b : string) :
  endsWith s (a +:+ b) = true -> endsWith s b = true.
Proof.
  intros [p ->]%endsWith_inv. rewrite <- app_assoc_str. apply endsWith_app.
Qed.

(** ** The error filter *)

Lemma filter_indexed_later (E : Engine) (i : nat) (lines : list string) :
  filter_indexed (keep_line E) (S i) lines =
    List.filter (fun line => negb (engine_frame E line)) lines.
Proof.
  revert i. induction lines as [|line rest IH]; intros i; [done|].
  simpl. unfold keep_line at 1. rewrite bool_decide_eq_false_2 by lia.
  simpl. by rewrite !IH.
Qed.

Lemma filter_indexed_first (E : Engine) (line : string) (rest : list string) :
  filter_indexed (keep_line E) 0 (line :: rest) =
    line :: List.filter (fun l => negb (engine_frame E l)) rest.
Proof. simpl. by rewrite filter_indexed_later. Qed.






Ltac run := vm_compute; reflexivity.

(** Closes a decidable goal without variables by evaluation. *)
Ltac decided := apply (bool_decide_unpack _); vm_compute; exact I.





(** ** Paths *)

Lemma normalize_segments_plain (done segs : list string) :
  forallb plain_segment segs = true ->
  normalize_segments done segs = rev done ++ segs.
Proof.
  revert done. induction segs as [|seg rest IH]; intros done Hplain; simpl.
  - by rewrite app_nil_r.
  - simpl in Hplain. apply andb_prop in Hplain as [Hseg Hrest].
    unfold plain_segment in Hseg.
    apply andb_prop in Hseg as [[H1 H2]%andb_prop H3].
    apply negb_true_iff in H1, H2, H3. rewrite H1, H2, H3. simpl.
    rewrite IH by done. simpl. by rewrite <- app_assoc.
Qed.

Lemma plain_path_relative (p : string) :
  plain_path p = true -> is_absolute p = false.
Proof.
  destruct p as [|a p]; [done|]. unfold plain_path, is_absolute.
  destruct (decide (a = SLASH)) as [->|Hne].
  - by rewrite split_cons_sep.
  - intros _. cbn [startsWith]. by rewrite bool_decide_eq_false_2.
Qed.

Lemma join_app (c : ascii) (xs ys : list string) :
  xs <> [] -> ys <> [] ->
  join c (xs ++ ys) = join c xs +:+ String c (join c ys).
Proof.
  intros Hx Hy. induction xs as [|x xs IH]; [done|].
  destruct xs as [|x' xs].
  - simpl app. by rewrite join_cons.
  - rewrite <- app_comm_cons. rewrite !join_cons by done.
    rewrite IH by done. by rewrite app_assoc_str, app_cons.
Qed.

(** A relative name in normal form lands right under an absolute directory
    in normal form. *)
Lemma path_resolve_plain (wd dir name : string) :
  plain_path dir = true -> plain_path name = true ->
  path_resolve wd ("/" +:+ dir) name = "/" +:+ dir +:+ "/" +:+ name.
Proof.
  intros Hdir Hname. unfold path_resolve.
  rewrite (plain_path_relative name Hname).
  change (is_absolute ("/" +:+ dir)) with true. cbv iota.
  change (("/" +:+ dir) +:+ "/" +:+ name)
    with (String SLASH (dir +:+ String SLASH name)).
  rewrite split_cons_sep, split_app_sep. simpl normalize_segments.
  rewrite normalize_segments_plain; simpl rev; simpl app.
  - rewrite join_app by apply split_not_nil. by rewrite !join_split.
  - unfold plain_path in *. by rewrite forallb_app, Hdir, Hname.
Qed.

(** An absolute name in normal form is its own path, whatever the
    directory. *)
Lemma path_resolve_absolute (wd dir name : string) :
  plain_path name = true ->
  path_resolve wd dir ("/" +:+ name) = "/" +:+ name.
Proof.
  intros Hname. unfold path_resolve.
  change (is_absolute ("/" +:+ name)) with true. cbv iota.
  change ("/" +:+ name) with (String SLASH name) at 1.
  rewrite split_cons_sep. simpl normalize_segments.
  rewrite normalize_segments_plain by done. simpl. by rewrite join_split.
Qed.

Lemma settings_of_default (E : Engine) (w : World) (options : gmap string value) :
  options !! "settings" = None ->
  settings_of E w options = (VString (extension E), VString (views E)).
Proof. intros H. unfold settings_of. by rewrite H. Qed.

Lemma with_extension_missing (name ext : string) :
  endsWith name ext = false -> with_extension name ext = name +:+ "." +:+ ext.
Proof. intros H. unfold with_extension. by rewrite H. Qed.

Lemma with_extension_present (name ext : string) :
  endsWith name ("." +:+ ext) = true -> with_extension name ext = name.
Proof.
  intros H. unfold with_extension. by rewrite (endsWith_weaken _ _ _ H).
Qed.

(** C2 (amended): with an absolute views directory in normal form, a relative
    name in normal form that does not end with the extension is resolved to
    views/name.extension, and one that ends with a dot and the extension to
    views/name, with nothing appended; an absolute name is not put under
    the views directory: it is resolved to itself, with the extension
    appended under the same test.  A call whose options carry no settings
    resolves with the engine's own extension and views directory. *)
Theorem template_path_rule (E : Engine) (dir ext name : string) :
  plain_path dir = true ->
  (endsWith name ext = false -> plain_path (name +:+ "." +:+ ext) = true ->
     template_path E (VString ext, VString ("/" +:+ dir)) name =
       Ok ("/" +:+ dir +:+ "/" +:+ name +:+ "." +:+ ext, ext))
  /\ (endsWith name ("." +:+ ext) = true -> plain_path name = true ->
     template_path E (VString ext, VString ("/" +:+ dir)) name =
       Ok ("/" +:+ dir +:+ "/" +:+ name, ext))
  /\ (forall rest, with_extension name ext = "/" +:+ rest ->
     plain_path rest = true ->
     template_path E (VString ext, VString ("/" +:+ dir)) name =
       Ok ("/" +:+ rest, ext))
  /\ (forall (w : World) (options : gmap string value),
     options !! "settings" = None ->
     extension E = ext -> views E = "/" +:+ dir ->
     template_path E (settings_of E w options) name =
       template_path E (VString ext, VString ("/" +:+ dir)) name).
Proof.
  intros Hdir. unfold template_path. simpl. repeat split.
  - intros Hends Hplain. rewrite with_extension_missing by done.
    by rewrite path_resolve_plain.
  - intros Hends Hplain. rewrite with_extension_present by done.
    by rewrite path_resolve_plain.
  - intros rest -> Hplain. by rewrite path_resolve_absolute.
  - intros w options Hnone <- Hviews. rewrite settings_of_default by done.
    simpl. by rewrite Hviews.
Qed.

Lemma template_path_rule_witness :
  plain_path "srv/app/views" = true
  /\ template_path demo_engine (VString "template", VString "/srv/app/views")
       "hello" = Ok ("/srv/app/views/hello.template", "template")
  /\ template_path demo_engine (VString "template", VString "/srv/app/views")
       "hello.template" = Ok ("/srv/app/views/hello.template", "template")
  /\ template_path demo_engine (VString "template", VString "/srv/app/views")
       "/srv/shared/footer" = Ok ("/srv/shared/footer.template", "template").
Proof.
  assert (Hdir : plain_path "srv/app/views" = true) by reflexivity.
  destruct (template_path_rule demo_engine "srv/app/views" "template" "hello"
              Hdir) as (Hmissing & _).
  destruct (template_path_rule demo_engine "srv/app/views" "template"
              "hello.template" Hdir) as (_ & Hpresent & _).
  destruct (template_path_rule demo_engine "srv/app/views" "template"
              "/srv/shared/footer" Hdir) as (_ & _ & Habsolute & _).
  split; [exact Hdir|]. split; [|split].
  - exact (Hmissing eq_refl eq_refl).
  - exact (Hpresent eq_refl eq_refl).
  - exact (Habsolute "srv/shared/footer.template" eq_refl eq_refl).
Defined.

(** The rule at work on the names of the README. *)
Example template_path_hello :
  template_path demo_engine (settings_of demo_engine start ∅) "hello" =
    Ok ("/srv/app/views/hello.template", "template").
Proof. run. Qed.

Example template_path_hello_with_extension :
  template_path demo_engine (settings_of demo_engine start ∅) "hello.template" =
    Ok ("/srv/app/views/hello.template", "template").
Proof. run. Qed.

(** Express hands the engine the absolute path of the view it has found;
    the engine renders that file and does not look under the views
    directory for it. *)
Lemma absolute_name_not_under_views :
  template_path demo_engine (VString "template", VString "/srv/app/views")
    "/srv/app/views/hello.template" =
    Ok ("/srv/app/views/hello.template", "template")
  /\ ~ resolves_under_views demo_engine "/srv/app/views" "template"
         "/srv/app/views/hello.template".
Proof.
  split; [run|]. unfold resolves_under_views. intros H.
  vm_compute in H. discriminate H.
Qed.

(** The test of line 53 looks for the extension without its dot: a name
    that ends with the letters of the extension gets nothing appended. *)
Example with_extension_no_dot :
  template_path demo_engine (VString "html", VString "/srv/app/views") "html" =
    Ok ("/srv/app/views/html", "html").
Proof. run. Qed.

(** ** The cache and its lock *)

Lemma load_template_body_held (E : Engine) (fs : gmap string File)
    (filepath : string) (w : World) :
  held (snd (load_template_body E fs filepath w)) = held w.
Proof.
  unfold load_template_body. repeat (case_match; simpl; try done).
Qed.

Lemma load_template_held (E : Engine) (fs : gmap string File)
    (filepath : string) (w : World) :
  held (snd (load_template E fs filepath w)) = held w.
Proof.
  unfold load_template. case_bool_decide as Hheld; [done|].
  pose proof (load_template_body_held E fs filepath
                (set_held ({[filepath]} ∪ held w) w)) as Hbody.
  destruct (load_template_body _ _ _ _) as [r w1]. simpl in *.
  rewrite Hbody. apply set_eq. intros x.
  rewrite elem_of_difference, elem_of_union, elem_of_singleton.
  split; [tauto|]. intros Hx. repeat split; [tauto|]. by intros ->.
Qed.

Lemma load_template_acquires (E : Engine) (fs : gmap string File)
    (filepath : string) (w : World) :
  filepath ∉ held w -> fst (load_template E fs filepath w) <> Waiting.
Proof.
  intros Hfree. unfold load_template.
  rewrite bool_decide_eq_false_2 by done.
  destruct (load_template_body _ _ _ _) as [[|e] w1]; simpl; done.
Qed.

Lemma must_compile_iff (cache : gmap string CacheEntry) (filepath : string)
    (current : Z) :
  must_compile cache filepath current = true
  <-> cache !! filepath = None
      \/ exists entry, cache !! filepath = Some entry /\ mtime entry <> current.
Proof.
  unfold must_compile, new_template.
  destruct (cache !! filepath) as [entry|]; simpl.
  - rewrite negb_true_iff, Z.eqb_neq. split.
    + intros Hne. right. exists entry. split; [done|]. congruence.
    + intros [?|(entry' & [= <-] & Hne)]; [done|]. congruence.
  - split; [by left|done].
Qed.

(** A load that finds a current entry: one [stat], and nothing else. *)
Lemma load_template_current (E : Engine) (fs : gmap string File)
    (filepath : string) (w : World) (file : File) :
  filepath ∉ held w -> fs !! filepath = Some file ->
  must_compile (file_cache w) filepath (f_mtime file) = false ->
  fst (load_template E fs filepath w) = Loaded
  /\ file_cache (snd (load_template E fs filepath w)) = file_cache w
  /\ events (snd (load_template E fs filepath w)) =
       Ev_stat filepath :: events w.
Proof.
  intros Hfree Hfile Hcurrent. unfold load_template.
  rewrite bool_decide_eq_false_2 by done.
  unfold load_template_body. simpl. by rewrite Hfile, Hcurrent.
Qed.

(** A load that does not find one: [readFile] is called, and the compiler
    too if the file can be read. *)
Lemma load_template_stale (E : Engine) (fs : gmap string File)
    (filepath : string) (w : World) (file : File) :
  filepath ∉ held w -> fs !! filepath = Some file ->
  must_compile (file_cache w) filepath (f_mtime file) = true ->
  read_count (snd (load_template E fs filepath w)) = S (read_count w)
  /\ (forall content, f_content file = Some content ->
        compile_count (snd (load_template E fs filepath w)) =
          S (compile_count w)).
Proof.
  intros Hfree Hfile Hstale. unfold load_template.
  rewrite bool_decide_eq_false_2 by done.
  unfold load_template_body. simpl. rewrite Hfile, Hstale.
  destruct (f_content file) as [content|]; [|by split].
  destruct (vm_Script E filepath content) as [compiled|e]; simpl.
  - destruct (logger E _); simpl; split; try done; by intros ? [= <-].
  - split; [done|]. by intros ? [= <-].
Qed.

(** After a load that succeeded the cache holds the file's modification
    time. *)
Lemma load_template_loaded_entry (E : Engine) (fs : gmap string File)
    (filepath : string) (w : World) (file : File) :
  filepath ∉ held w -> fs !! filepath = Some file ->
  fst (load_template E fs filepath w) = Loaded ->
  must_compile (file_cache (snd (load_template E fs filepath w))) filepath
    (f_mtime file) = false.
Proof.
  intros Hfree Hfile.
  destruct (must_compile (file_cache w) filepath (f_mtime file)) eqn:Hstale.
  - unfold load_template. rewrite bool_decide_eq_false_2 by done.
    unfold load_template_body. simpl. rewrite Hfile, Hstale.
    destruct (f_content file) as [content|]; [|done].
    destruct (vm_Script E filepath content) as [compiled|e]; [|done].
    destruct (logger E _); [|done]. simpl. intros _.
    unfold must_compile, new_template. rewrite lookup_insert_eq. simpl.
    by rewrite Z.eqb_refl.
  - intros _.
    destruct (load_template_current E fs filepath w file) as (_ & -> & _);
      done.
Qed.

Lemma count_after_stat (w w' : World) (p : string) :
  events w' = Ev_stat p :: events w ->
  read_count w' = read_count w /\ compile_count w' = compile_count w.
Proof. unfold read_count, compile_count. by intros ->. Qed.

(** ** A current entry stays through a render *)

Lemma settled_entry_frame (filepath : string) (m : Z) (c : nat) (w w' : World) :
  file_cache w' = file_cache w -> events w' = events w ->
  settled_entry filepath m c w -> settled_entry filepath m c w'.
Proof.
  unfold settled_entry, compiles_of. by intros -> ->.
Qed.

Lemma must_compile_other (cache cache' : gmap string CacheEntry)
    (filepath : string) (m : Z) :
  cache' !! filepath = cache !! filepath ->
  must_compile cache' filepath m = must_compile cache filepath m.
Proof. unfold must_compile, new_template. by intros ->. Qed.

(** Loading any file leaves a current entry of [filepath] current, and
    compiles [filepath] no further, as long as the file of [filepath] has
    the modification time of the entry. *)
Lemma load_template_keeps_entry (E : Engine) (fs : gmap string File)
    (filepath other : string) (file : File) (c : nat) (w : World) :
  fs !! filepath = Some file ->
  settled_entry filepath (f_mtime file) c w ->
  settled_entry filepath (f_mtime file) c (snd (load_template E fs other w)).
Proof.
  intros Hfile [Hcurrent Hcount]. unfold load_template.
  case_bool_decide as Hheld; [done|].
  destruct (decide (other = filepath)) as [->|Hne].
  - unfold load_template_body. cbn [file_cache record_event set_held].
    rewrite Hfile, Hcurrent. by split.
  - unfold load_template_body. cbn [file_cache record_event set_held].
    destruct (fs !! other) as [file'|]; [|by split].
    destruct (must_compile (file_cache w) other (f_mtime file'));
      [|by split].
    destruct (f_content file') as [content|]; [|by split].
    assert (Hcount' : forall evs,
      length (List.filter
                (fun ev => match ev with
                           | Ev_Script p => bool_decide (p = filepath)
                           | _ => false
                           end)
                (Ev_Script other :: Ev_readFile other :: Ev_stat other :: evs))
      = length (List.filter
                  (fun ev => match ev with
                             | Ev_Script p => bool_decide (p = filepath)
                             | _ => false
                             end) evs)).
    { intros evs. simpl. by rewrite bool_decide_eq_false_2. }
    destruct (vm_Script E other content) as [compiled|e].
    + destruct (logger E _); (split; [|unfold compiles_of; simpl events;
                                         by rewrite Hcount']);
        simpl; rewrite <- Hcurrent; apply must_compile_other;
        by rewrite lookup_insert_ne, lookup_delete_ne.
    + split; [|unfold compiles_of; simpl events; by rewrite Hcount'].
      simpl. rewrite <- Hcurrent. apply must_compile_other.
      by rewrite lookup_delete_ne.
Qed.

(** A load compiles its file once at most. *)
Lemma load_template_compiles_le (E : Engine) (fs : gmap string File)
    (filepath : string) (w : World) :
  (compiles_of filepath (snd (load_template E fs filepath w))
   <= S (compiles_of filepath w))%nat.
Proof.
  unfold load_template. case_bool_decide; [simpl; lia|].
  unfold load_template_body, compiles_of.
  cbn [file_cache record_event set_held].
  destruct (fs !! filepath) as [file|]; [|simpl; lia].
  destruct (must_compile (file_cache w) filepath (f_mtime file));
    [|simpl; lia].
  destruct (f_content file) as [content|]; [|simpl; lia].
  destruct (vm_Script E filepath content) as [compiled|e];
    [destruct (logger E _)|];
    simpl; rewrite bool_decide_eq_true_2 by done; simpl; lia.
Qed.

Lemma load_template_loaded_current (E : Engine) (fs : gmap string File)
    (filepath : string) (w w' : World) (file : File) :
  fs !! filepath = Some file ->
  load_template E fs filepath w = (Loaded, w') ->
  must_compile (file_cache w') filepath (f_mtime file) = false.
Proof.
  intros Hfile Hload.
  assert (Hfree : filepath ∉ held w).
  { intros Hheld. unfold load_template in Hload.
    by rewrite bool_decide_eq_true_2 in Hload. }
  pose proof (load_template_loaded_entry E fs filepath w file Hfree Hfile)
    as Hentry.
  rewrite Hload in Hentry. by apply Hentry.
Qed.

Lemma catch_value_frame (E : Engine) (v : value) (w : World) :
  file_cache (snd (catch_value E v w)) = file_cache w
  /\ held (snd (catch_value E v w)) = held w
  /\ events (snd (catch_value E v w)) = events w
  /\ exported (snd (catch_value E v w)) = exported w
  /\ clock (snd (catch_value E v w)) = clock w.
Proof. unfold catch_value. by repeat case_match. Qed.

Lemma catch_value_not_blocked (E : Engine) (v : value) (w : World) :
  fst (catch_value E v w) <> Blocked.
Proof. unfold catch_value. by repeat case_match. Qed.

Lemma record_export_frame (ctx : gmap string value) (key : string)
    (val : value) (w : World) :
  file_cache (record_export ctx key val w) = file_cache w
  /\ held (record_export ctx key val w) = held w
  /\ events (record_export ctx key val w) = events w
  /\ heap (record_export ctx key val w) = heap w
  /\ clock (record_export ctx key val w) = clock w.
Proof. unfold record_export. by case_match. Qed.

(** A property of the state that no step of a render disturbs: it looks at
    the cache, the locks and the recorded calls only, and every load keeps
    it. *)
Section Preserved.

Variable E : Engine.
Variable fs : gmap string File.
Variable P : World -> Prop.

Hypothesis P_frame : forall w w' : World,
  file_cache w' = file_cache w -> held w' = held w -> events w' = events w ->
  P w -> P w'.

Hypothesis P_load : forall (filepath : string) (w : World),
  P w -> P (snd (load_template E fs filepath w)).

Lemma exec_preserves
    (inc : string -> gmap string value -> option Z -> World
           -> settled string * World) :
  (forall name opts outer w, P w -> P (snd (inc name opts outer w))) ->
  forall (t : tmpl) (ctx options : gmap string value) (deadline : Z)
         (locals : gmap string value) (w : World),
    P w -> P (snd (exec E inc ctx options deadline t locals w)).
Proof.
  intros Hinc. induction t as
    [text|e|v| | |ms t IH|x k IH|x k IH|key v k IH|key k IH|key v k IH
    |name include_options k IH|name k IH|msg k IH];
    intros ctx options deadline locals w Hw; cbn [exec]; try done.
  - case_match; [|done]. apply IH. by apply (P_frame w).
  - case_match; [by apply IH|done].
  - by apply IH.
  - by apply IH.
  - by apply IH.
  - destruct (export_var E ctx key v (heap w)) as [[r h]|e]; [|done].
    apply IH.
    destruct (record_export_frame ctx key v (set_heap h w))
      as (Hc & Hh & He & _).
    by apply (P_frame w).
  - pose proof (Hinc name (nested_options options include_options)
                  (Some deadline) w Hw) as Hchild.
    destruct (inc name _ _ w) as [[text|e|v| | | |] w']; simpl in *; try done.
    by apply IH.
  - set (w1 := set_heap _ w).
    assert (Hw1 : P w1) by (by apply (P_frame w)).
    pose proof (Hinc name (import_options options (fresh (dom (heap w))))
                  (Some deadline) w1 Hw1) as Hchild.
    destruct (inc name _ _ w1) as [[text|e|v| | | |] w']; simpl in *; try done.
    by apply IH.
  - destruct (logger E msg) as [r|e]; [|done].
    apply IH. by apply (P_frame w).
Qed.

Lemma run_script_preserves
    (inc : string -> gmap string value -> option Z -> World
           -> settled string * World)
    (ctx options : gmap string value) (path : string) (outer : option Z)
    (w : World) :
  (forall name opts outer w, P w -> P (snd (inc name opts outer w))) ->
  P w -> P (snd (run_script E inc ctx options path outer w)).
Proof.
  intros Hinc Hw. unfold run_script.
  destruct (file_cache w !! path) as [entry|]; [|done].
  destruct (vm_timeout_ok (timeout E)); [|by apply (P_frame w)].
  set (d := match outer with Some d => Z.min d _ | None => _ end).
  assert (Hnext : P (next_context w)) by (by apply (P_frame w)).
  pose proof (exec_preserves inc Hinc (script entry) ctx options d ∅
                (next_context w) Hnext) as Hexec.
  destruct (exec E inc ctx options d (script entry) ∅ (next_context w))
    as [[text|e|v| | | |] w']; simpl in *; try done.
  destruct outer as [deadline|]; [case_match|]; simpl; try done;
    by apply (P_frame w').
Qed.

Lemma include_preserves (fuel : nat) :
  forall (filename : string) (options : gmap string value)
         (outer : option Z) (w : World),
    P w -> P (snd (include E fs fuel filename options outer w)).
Proof.
  induction fuel as [|fuel IH];
    intros filename options outer w Hw; cbn [include]; [done|].
  destruct (template_path E (settings_of E w options) filename)
    as [[path ext]|e]; [|done].
  pose proof (P_load path w Hw) as Hload.
  destruct (load_template E fs path w) as [[|e|] w2]; simpl in Hload;
    try done.
  pose proof (run_script_preserves (include E fs fuel)
                (make_context E options path ext) options path outer w2
                IH Hload) as Hrun.
  destruct (run_script _ _ _ _ _ _ _) as [[text|e|v| | | |] w3]; try done.
  destruct (catch_value_frame E v w3) as (Hc & Hh & He & _).
  by apply (P_frame w3).
Qed.

End Preserved.

(** No render compiles a file again whose entry is current. *)
Lemma include_keeps_entry (E : Engine) (fs : gmap string File)
    (filepath : string) (file : File) (c : nat) (fuel : nat) :
  fs !! filepath = Some file ->
  forall (filename : string) (options : gmap string value)
         (outer : option Z) (w : World),
    settled_entry filepath (f_mtime file) c w ->
    settled_entry filepath (f_mtime file) c
      (snd (include E fs fuel filename options outer w)).
Proof.
  intros Hfile. apply include_preserves.
  - intros w w' Hcache _ Hevents. by apply settled_entry_frame.
  - intros other w. by apply load_template_keeps_entry.
Qed.

(** No render changes the set of locked paths. *)
Lemma include_held (E : Engine) (fs : gmap string File) (fuel : nat)
    (filename : string) (options : gmap string value) (outer : option Z)
    (w : World) :
  held (snd (include E fs fuel filename options outer w)) = held w.
Proof.
  apply (include_preserves E fs (fun w' => held w' = held w)); [| |done].
  - intros w1 w2 _ Hheld _. by rewrite Hheld.
  - intros other w1 <-. apply load_template_held.
Qed.

(** Running a template never ends waiting for a mutex: a nested render that
    waits shows as a promise that is not settled. *)
Lemma exec_not_blocked (E : Engine)
    (inc : string -> gmap string value -> option Z -> World
           -> settled string * World)
    (t : tmpl) :
  forall (ctx options : gmap string value) (deadline : Z)
         (locals : gmap string value) (w : World),
    fst (exec E inc ctx options deadline t locals w) <> Blocked.
Proof.
  induction t as
    [text|e|v| | |ms t IH|x k IH|x k IH|key v k IH|key k IH|key v k IH
    |name include_options k IH|name k IH|msg k IH];
    intros ctx options deadline locals w; cbn [exec];
    repeat case_match; simpl; try done; apply IH.
Qed.

Lemma run_script_not_blocked (E : Engine)
    (inc : string -> gmap string value -> option Z -> World
           -> settled string * World)
    (ctx options : gmap string value) (path : string) (outer : option Z)
    (w : World) :
  fst (run_script E inc ctx options path outer w) <> Blocked.
Proof.
  unfold run_script. destruct (file_cache w !! path) as [entry|]; [|done].
  destruct (vm_timeout_ok (timeout E)); [|done].
  set (d := match outer with Some d => Z.min d _ | None => _ end).
  pose proof (exec_not_blocked E inc (script entry) ctx options d ∅
                (next_context w)) as Hexec.
  destruct (exec E inc ctx options d (script entry) ∅ (next_context w))
    as [[text|e|v| | | |] w']; simpl in *; try done.
  destruct outer as [deadline|]; [case_match|]; done.
Qed.

(** C6: a load that finds the path's mutex free takes it and gives it back
    whatever the outcome, a resolved promise or an error thrown by [stat],
    [readFile], the compiler or the logger: the set of locked paths is
    afterwards what it was before, and the next load of the path, whatever
    the files then are, gets the mutex as well.  So it is with renders: a
    render leaves the locks as they were, however it ends, and a render of
    the path that follows does not wait for the mutex. *)
Theorem load_template_releases_lock (E : Engine) (fs : gmap string File)
    (filepath : string) (w : World) :
  filepath ∉ held w ->
  fst (load_template E fs filepath w) <> Waiting
  /\ held (snd (load_template E fs filepath w)) = held w
  /\ (filepath ∉ held (snd (load_template E fs filepath w)))
  /\ (forall fs' : gmap string File,
       fst (load_template E fs' filepath (snd (load_template E fs filepath w)))
         <> Waiting)
  /\ (forall (fuel : nat) (name : string) (options : gmap string value),
       held (snd (render E fs fuel name options w)) = held w)
  /\ (forall (fuel fuel' : nat) (name name' ext' : string)
             (options options' : gmap string value) (fs' : gmap string File),
       template_path E
         (settings_of E (snd (render E fs fuel name options w)) options')
         name' = Ok (filepath, ext') ->
       fst (render E fs' fuel' name' options'
              (snd (render E fs fuel name options w))) <> Blocked).
Proof.
  intros Hfree. pose proof (load_template_held E fs filepath w) as Hheld.
  split; [by apply load_template_acquires|]. split; [done|].
  split; [by rewrite Hheld|].
  split; [intros fs'; apply load_template_acquires; by rewrite Hheld|].
  split; [intros fuel name options; apply include_held|].
  intros fuel fuel' name name' ext' options options' fs' Hpath.
  set (w1 := snd (render E fs fuel name options w)) in *.
  assert (Hfree1 : filepath ∉ held w1)
    by (unfold w1, render; by rewrite include_held).
  unfold render. destruct fuel' as [|fuel']; [done|].
  cbn [include]. rewrite Hpath.
  pose proof (load_template_acquires E fs' filepath w1 Hfree1) as Hacquire.
  destruct (load_template E fs' filepath w1) as [[|e|] w2]; [|done|done].
  pose proof (run_script_not_blocked E (include E fs' fuel')
                (make_context E options' filepath ext') options' filepath
                None w2) as Hrun.
  destruct (run_script _ _ _ _ _ _ _) as [[text|e|v| | | |] w3]; try done.
  apply catch_value_not_blocked.
Qed.

Lemma load_template_releases_lock_witness :
  ("/srv/app/views/broken.template" ∉ held start)
  /\ fst (load_template demo_engine demo_fs
            "/srv/app/views/broken.template" start) = Failed syntax_error
  /\ held (snd (load_template demo_engine demo_fs
                  "/srv/app/views/broken.template" start)) = held start
  /\ fst (load_template demo_engine demo_fs "/srv/app/views/broken.template"
            (snd (load_template demo_engine demo_fs
                    "/srv/app/views/broken.template" start))) <> Waiting
  /\ fst (render demo_engine demo_fs 1 "broken" ∅
            (snd (render demo_engine demo_fs 1 "broken" ∅ start))) <> Blocked.
Proof.
  assert (H : "/srv/app/views/broken.template" ∉ held start)
    by (simpl; apply not_elem_of_empty).
  destruct (load_template_releases_lock demo_engine demo_fs
              "/srv/app/views/broken.template" start H)
    as (_ & Hheld & _ & Hnext & _ & Hrender).
  split; [exact H|]. split; [run|]. split; [exact Hheld|].
  split; [exact (Hnext demo_fs)|].
  assert (Hpath : template_path demo_engine
            (settings_of demo_engine
               (snd (render demo_engine demo_fs 1 "broken" ∅ start)) ∅)
            "broken" = Ok ("/srv/app/views/broken.template", "template"))
    by run.
  exact (Hrender 1%nat 1%nat "broken" "broken" "template" ∅ ∅ demo_fs Hpath).
Defined.

(** A missing file: [stat] throws, and the lock is free again. *)
Example load_missing_template :
  fst (load_template demo_engine demo_fs "/srv/app/views/none.template" start)
    = Failed (fs_error demo_engine "ENOENT: no such file or directory" "stat"
                "/srv/app/views/none.template")
  /\ held (snd (load_template demo_engine demo_fs
                  "/srv/app/views/none.template" start)) = ∅.
Proof. split; run. Qed.

(** The entry is stored as soon as the compiler has returned: a logger that
    throws afterwards leaves it in the cache. *)
Lemma load_template_compiled_entry (E : Engine) (fs : gmap string File)
    (filepath : string) (w : World) (file : File) (content : string)
    (compiled : tmpl) :
  filepath ∉ held w -> fs !! filepath = Some file ->
  f_content file = Some content ->
  vm_Script E filepath content = Ok compiled ->
  must_compile (file_cache (snd (load_template E fs filepath w))) filepath
    (f_mtime file) = false.
Proof.
  intros Hfree Hfile Hcontent Hcompiled.
  destruct (must_compile (file_cache w) filepath (f_mtime file)) eqn:Hstale.
  - unfold load_template. rewrite bool_decide_eq_false_2 by done.
    unfold load_template_body. simpl.
    rewrite Hfile, Hstale, Hcontent, Hcompiled.
    destruct (logger E _); simpl;
      unfold must_compile, new_template; rewrite lookup_insert_eq; simpl;
      by rewrite Z.eqb_refl.
  - destruct (load_template_current E fs filepath w file) as (_ & -> & _);
      done.
Qed.

(** When the compiler throws, the path has no entry afterwards. *)
Lemma load_template_uncompiled (E : Engine) (fs : gmap string File)
    (filepath : string) (w : World) (file : File) (content : string)
    (e : error) :
  filepath ∉ held w -> fs !! filepath = Some file ->
  must_compile (file_cache w) filepath (f_mtime file) = true ->
  f_content file = Some content ->
  vm_Script E filepath content = Thrown e ->
  load_template E fs filepath w =
    (Failed e, snd (load_template E fs filepath w))
  /\ file_cache (snd (load_template E fs filepath w)) !! filepath = None.
Proof.
  intros Hfree Hfile Hstale Hcontent Hthrown.
  unfold load_template. rewrite bool_decide_eq_false_2 by done.
  unfold load_template_body. simpl.
  rewrite Hfile, Hstale, Hcontent, Hthrown. simpl.
  split; [done|]. apply lookup_delete_eq.
Qed.

(** C1 (amended): a load whose [stat] succeeds reads and compiles the file
    exactly when the cache has no entry for the path or the entry's
    modification time differs from the file's (it reads then, and compiles
    if the file can be read); otherwise the cache stays as it is and the
    file is neither read nor compiled.  Once the compiler has returned a
    script the entry is in the cache, also when the logger throws next; from
    then on no load compiles the file as long as its modification time is
    the same, whatever its content now is.  So a render of the path, however
    it ends (resolved, rejected by the template, timed out), compiles the
    file once at most and no later render compiles it again, provided its
    load left a current entry.  When the compiler throws the path has no
    entry afterwards, and the next load has to compile again. *)
Theorem load_template_compiles_when_stale (E : Engine) (fs : gmap string File)
    (filepath : string) (w : World) (file : File) :
  filepath ∉ held w -> fs !! filepath = Some file ->
  (must_compile (file_cache w) filepath (f_mtime file) = true
   <-> file_cache w !! filepath = None
       \/ exists entry, file_cache w !! filepath = Some entry
                        /\ mtime entry <> f_mtime file)
  /\ (must_compile (file_cache w) filepath (f_mtime file) = true ->
      read_count (snd (load_template E fs filepath w)) = S (read_count w)
      /\ (forall content, f_content file = Some content ->
            compile_count (snd (load_template E fs filepath w)) =
              S (compile_count w)))
  /\ (must_compile (file_cache w) filepath (f_mtime file) = false ->
      fst (load_template E fs filepath w) = Loaded
      /\ file_cache (snd (load_template E fs filepath w)) = file_cache w
      /\ read_count (snd (load_template E fs filepath w)) = read_count w
      /\ compile_count (snd (load_template E fs filepath w)) = compile_count w)
  /\ (fst (load_template E fs filepath w) = Loaded ->
      must_compile (file_cache (snd (load_template E fs filepath w))) filepath
        (f_mtime file) = false)
  /\ (forall (content : string) (compiled : tmpl),
      f_content file = Some content ->
      vm_Script E filepath content = Ok compiled ->
      must_compile (file_cache (snd (load_template E fs filepath w))) filepath
        (f_mtime file) = false)
  /\ (must_compile (file_cache (snd (load_template E fs filepath w))) filepath
        (f_mtime file) = false ->
      forall (fs' : gmap string File) (file' : File),
        fs' !! filepath = Some file' -> f_mtime file' = f_mtime file ->
        let w1 := snd (load_template E fs filepath w) in
        fst (load_template E fs' filepath w1) = Loaded
        /\ file_cache (snd (load_template E fs' filepath w1)) = file_cache w1
        /\ read_count (snd (load_template E fs' filepath w1)) = read_count w1
        /\ compile_count (snd (load_template E fs' filepath w1)) =
             compile_count w1)
  /\ (forall (fuel : nat) (name : string) (options : gmap string value)
             (ext : string),
      template_path E (settings_of E w options) name = Ok (filepath, ext) ->
      must_compile (file_cache (snd (load_template E fs filepath w))) filepath
        (f_mtime file) = false ->
      let w1 := snd (render E fs (S fuel) name options w) in
      (compiles_of filepath w1 <= S (compiles_of filepath w))%nat
      /\ forall (fs' : gmap string File) (file' : File) (fuel' : nat)
                (name' : string) (options' : gmap string value),
           fs' !! filepath = Some file' -> f_mtime file' = f_mtime file ->
           compiles_of filepath (snd (render E fs' fuel' name' options' w1)) =
             compiles_of filepath w1)
  /\ (forall (content : string) (e : error),
      must_compile (file_cache w) filepath (f_mtime file) = true ->
      f_content file = Some content ->
      vm_Script E filepath content = Thrown e ->
      fst (load_template E fs filepath w) = Failed e
      /\ file_cache (snd (load_template E fs filepath w)) !! filepath = None
      /\ forall m : Z,
           must_compile (file_cache (snd (load_template E fs filepath w)))
             filepath m = true).
Proof.
  intros Hfree Hfile. split; [apply must_compile_iff|].
  split; [by apply load_template_stale|].
  split; [|split; [|split; [|split; [|split]]]].
  - intros Hcurrent.
    destruct (load_template_current E fs filepath w file)
      as (Hr & Hc & Hev); try done.
    destruct (count_after_stat _ _ _ Hev). done.
  - by apply load_template_loaded_entry.
  - intros content compiled. by apply load_template_compiled_entry.
  - intros Hstored fs' file' Hfile' Hsame w1.
    assert (Hfree1 : filepath ∉ held w1)
      by (unfold w1; by rewrite load_template_held).
    assert (Hcurrent : must_compile (file_cache w1) filepath (f_mtime file')
                       = false)
      by (by rewrite Hsame).
    destruct (load_template_current E fs' filepath w1 file')
      as (Hr & Hc & Hev); try done.
    destruct (count_after_stat _ _ _ Hev). done.
  - intros fuel name options ext Hpath Hstored w1.
    unfold w1, render. cbn [include]. rewrite Hpath.
    pose proof (load_template_compiles_le E fs filepath w) as Hle.
    destruct (load_template E fs filepath w) as [[|e|] w2] eqn:Hload;
      simpl in Hstored, Hle.
    + assert (Hw2 : settled_entry filepath (f_mtime file)
                      (compiles_of filepath w2) w2) by (by split).
      pose proof (run_script_preserves E
                    (settled_entry filepath (f_mtime file)
                       (compiles_of filepath w2))
                    (fun w w' Hc _ He => settled_entry_frame _ _ _ w w' Hc He)
                    (include E fs fuel)
                    (make_context E options filepath ext) options filepath
                    None w2
                    (include_keeps_entry E fs filepath file _ fuel Hfile) Hw2)
        as Hrun.
      assert (Hend : settled_entry filepath (f_mtime file)
                (compiles_of filepath w2)
                (snd (match run_script E (include E fs fuel)
                              (make_context E options filepath ext) options
                              filepath None w2 with
                      | (Rejected e, w') => (Rejected (normalize E e), w')
                      | (Threw v, w') => catch_value E v w'
                      | r => r
                      end))).
      { destruct (run_script _ _ _ _ _ _ _) as [[text'|e|v| | | |] w3];
          try done.
        destruct (catch_value_frame E v w3) as (Hc & _ & He & _).
        by apply (settled_entry_frame _ _ _ w3). }
      destruct Hend as [Hcurrent Hcount]. split; [lia|].
      intros fs' file' fuel' name' options' Hfile' Hsame.
      match goal with |- compiles_of _ (snd (include _ _ _ _ _ _ ?w3)) = _ =>
        assert (Hw3 : settled_entry filepath (f_mtime file')
                        (compiles_of filepath w3) w3)
          by (rewrite Hsame; by split);
        by destruct (include_keeps_entry E fs' filepath file' _ fuel' Hfile'
                       name' options' None w3 Hw3)
      end.
    + simpl. split; [lia|].
      intros fs' file' fuel' name' options' Hfile' Hsame.
      assert (Hw2 : settled_entry filepath (f_mtime file')
                      (compiles_of filepath w2) w2)
        by (rewrite Hsame; by split).
      by destruct (include_keeps_entry E fs' filepath file' _ fuel' Hfile'
                     name' options' None w2 Hw2).
    + simpl. split; [lia|].
      intros fs' file' fuel' name' options' Hfile' Hsame.
      assert (Hw2 : settled_entry filepath (f_mtime file')
                      (compiles_of filepath w2) w2)
        by (rewrite Hsame; by split).
      by destruct (include_keeps_entry E fs' filepath file' _ fuel' Hfile'
                     name' options' None w2 Hw2).
  - intros content e Hstale Hcontent Hthrown.
    destruct (load_template_uncompiled E fs filepath w file content e)
      as [Hfailed Hnone]; try done.
    split; [by rewrite Hfailed|]. split; [done|].
    intros m. unfold must_compile, new_template. by rewrite Hnone.
Qed.

Lemma load_template_compiles_when_stale_witness :
  ("/srv/app/views/hello.template" ∉ held start)
  /\ demo_fs !! "/srv/app/views/hello.template" =
       Some (demo_file importer_template)
  /\ compile_count
       (snd (load_template demo_engine demo_fs
               "/srv/app/views/hello.template" start)) = 1%nat
  /\ compile_count
       (snd (load_template demo_engine
               (<["/srv/app/views/hello.template" := demo_file child_template]>
                  demo_fs)
               "/srv/app/views/hello.template"
               (snd (load_template demo_engine demo_fs
                       "/srv/app/views/hello.template" start))))
     = compile_count
         (snd (load_template demo_engine demo_fs
                 "/srv/app/views/hello.template" start)).
Proof.
  assert (Hfree : "/srv/app/views/hello.template" ∉ held start)
    by (simpl; apply not_elem_of_empty).
  assert (Hfile : demo_fs !! "/srv/app/views/hello.template" =
                    Some (demo_file importer_template)) by run.
  destruct (load_template_compiles_when_stale demo_engine demo_fs
              "/srv/app/views/hello.template" start
              (demo_file importer_template) Hfree Hfile)
    as (_ & Hstale & _ & Hentry & _ & Hnext & _).
  assert (Hmust : must_compile (file_cache start)
                    "/srv/app/views/hello.template"
                    (f_mtime (demo_file importer_template)) = true) by run.
  assert (Hloaded : fst (load_template demo_engine demo_fs
                           "/srv/app/views/hello.template" start) = Loaded)
    by run.
  assert (Hfile' : <["/srv/app/views/hello.template" :=
                      demo_file child_template]> demo_fs
                     !! "/srv/app/views/hello.template" =
                   Some (demo_file child_template)) by run.
  split; [exact Hfree|]. split; [exact Hfile|]. split.
  - destruct (Hstale Hmust) as [_ Hcompile].
    exact (Hcompile importer_template eq_refl).
  - destruct (Hnext (Hentry Hloaded) _ _ Hfile' eq_refl)
      as (_ & _ & _ & Hcount).
    exact Hcount.
Defined.

(** Two renders in a row of a template that does not compile: both are
    rejected with the SyntaxError, no entry is stored, and the second
    render compiles the file again. *)
Lemma broken_template_compiles_twice :
  fst (render demo_engine demo_fs 1 "broken" ∅ start) = Rejected syntax_error
  /\ fst (render demo_engine demo_fs 1 "broken" ∅
            (snd (render demo_engine demo_fs 1 "broken" ∅ start))) =
       Rejected syntax_error
  /\ compiles_of "/srv/app/views/broken.template"
       (snd (render demo_engine demo_fs 1 "broken" ∅
               (snd (render demo_engine demo_fs 1 "broken" ∅ start)))) = 2%nat
  /\ ~ renders_compile_at_most_once demo_engine demo_fs 1 "broken" ∅
         "/srv/app/views/broken.template" start.
Proof.
  split; [run|]. split; [run|]. split; [run|].
  unfold renders_compile_at_most_once. intros H. vm_compute in H. lia.
Qed.

(** The same template rendered twice with nothing in between: one compile. *)
Example render_twice_compiles_once :
  compile_count
    (snd (render demo_engine demo_fs 1 "child" {[ "x" := VNumber 0; "y" := VNumber 2 ]}
            (snd (render demo_engine demo_fs 1 "child"
                    {[ "x" := VNumber 0; "y" := VNumber 2 ]} start)))) = 1%nat.
Proof. run. Qed.

(** ** The context *)

(** C10: in every context the eight names bound after the two spreads
    denote the engine's own functions and the identity of the template
    file, whatever the injected globals and the options bind under these
    names; a template that names one of the functions gets the engine's. *)
Theorem engine_names_shadow (E : Engine) (options : gmap string value)
    (filepath ext : string) :
  make_context E options filepath ext !! "include" = Some (VFunction H_include)
  /\ make_context E options filepath ext !! "set" = Some (VFunction H_set)
  /\ make_context E options filepath ext !! "get" = Some (VFunction H_get)
  /\ make_context E options filepath ext !! "import_vars" =
       Some (VFunction H_import_vars)
  /\ make_context E options filepath ext !! "log" = Some (VFunction H_log)
  /\ make_context E options filepath ext !! "__template" =
       Some (VString (basename filepath ("." +:+ ext)))
  /\ make_context E options filepath ext !! "__filename" =
       Some (VString filepath)
  /\ make_context E options filepath ext !! "__dirname" =
       Some (VString (dirname filepath))
  /\ lookup_name (make_context E options filepath ext) "set" =
       Some (VFunction H_set).
Proof.
  unfold lookup_name, make_context. cbn [bool_decide].
  repeat split; by simplify_map_eq.
Qed.

(** An option of one of these names does not reach the template. *)
Example option_cannot_replace_get :
  make_context demo_engine {[ "get" := VString "mine" ]}
    "/srv/app/views/hello.template" "template" !! "get" =
    Some (VFunction H_get).
Proof. run. Qed.

Lemma make_context_other (E : Engine) (options : gmap string value)
    (filepath ext x : string) :
  x ∉ engine_names ->
  make_context E options filepath ext !! x = (options ∪ always_inject E) !! x.
Proof.
  intros Hx. unfold engine_names in Hx. unfold make_context.
  rewrite !lookup_insert_ne; [done|..]; intros <-; apply Hx;
    repeat constructor.
Qed.

(** C7: for a name that is not one of the engine's, the context gives what
    the caller's options bind, and what the injected globals bind only when
    the options bind nothing.  A nested [include(name, overrides)] renders
    the child with the caller's options and the overrides on top: a child
    that writes the name [x] writes the override if there is one, else the
    parent's option, else the injected global, and the parent gets the
    child's text.  With overrides {x: 1} on options {x: 0, y: 2} the child
    sees x = 1 and y = 2. *)
Theorem context_precedence (E : Engine) (options overrides : gmap string value)
    (filepath ext x : string) :
  x ∉ engine_names ->
  (forall v, options !! x = Some v ->
     make_context E options filepath ext !! x = Some v)
  /\ (options !! x = None ->
      make_context E options filepath ext !! x = always_inject E !! x)
  /\ (forall v, overrides !! x = Some v ->
      make_context E (nested_options options overrides) filepath ext !! x =
        Some v)
  /\ (overrides !! x = None ->
      make_context E (nested_options options overrides) filepath ext !! x =
        make_context E options filepath ext !! x)
  /\ (forall (inc : string -> gmap string value -> option Z -> World
                    -> settled string * World)
             ctx deadline name (g : value -> string) locals w text w',
        inc name (overrides ∪ options) (Some deadline) w =
          (Resolved text, w') ->
        exec E inc ctx options deadline
          (Await_include name overrides (fun r => Ret (g r))) locals w =
          (Resolved (g (VString text)), w'))
  /\ (forall (fs : gmap string File) (fuel : nat) ctx deadline name
             (f g : value -> string) locals w w2 entry v,
        x <> "export_var" ->
        template_path E (settings_of E w (overrides ∪ options)) name =
          Ok (filepath, ext) ->
        load_template E fs filepath w = (Loaded, w2) ->
        file_cache w2 !! filepath = Some entry ->
        script entry = Var x (fun v => Ret (f v)) ->
        vm_timeout_ok (timeout E) = true ->
        (overrides ∪ (options ∪ always_inject E)) !! x = Some v ->
        exec E (include E fs (S fuel)) ctx options deadline
          (Await_include name overrides (fun r => Ret (g r))) locals w =
          (Resolved (g (VString (f v))), next_context w2))
  /\ make_context E
       (nested_options {[ "x" := VNumber 0; "y" := VNumber 2 ]}
          {[ "x" := VNumber 1 ]}) filepath ext !! "x" = Some (VNumber 1)
  /\ make_context E
       (nested_options {[ "x" := VNumber 0; "y" := VNumber 2 ]}
          {[ "x" := VNumber 1 ]}) filepath ext !! "y" = Some (VNumber 2).
Proof.
  intros Hx. rewrite !make_context_other by done. unfold nested_options.
  split; [|split; [|split; [|split; [|split; [|split; [|split]]]]]].
  - intros v Hv. by apply lookup_union_Some_l.
  - intros Hnone. by apply lookup_union_r.
  - intros v Hv. by do 2 apply lookup_union_Some_l.
  - intros Hnone. rewrite <- !(assoc_L (∪)). by apply lookup_union_r.
  - intros inc ctx deadline name g locals w text w' Hinc. cbn [exec].
    unfold nested_options. by rewrite Hinc.
  - intros fs fuel ctx deadline name f g locals w w2 entry v
      Hname Hpath Hload Hentry Hscript Hvm Hv.
    cbn [exec include]. unfold nested_options. rewrite Hpath, Hload.
    unfold run_script. rewrite Hentry, Hvm, Hscript. cbn [exec].
    unfold lookup_name. rewrite bool_decide_eq_false_2 by done.
    rewrite make_context_other by done.
    rewrite <- (assoc_L (∪)), Hv. cbn [exec]. done.
  - rewrite make_context_other by decided.
    do 2 apply lookup_union_Some_l. by simplify_map_eq.
  - rewrite make_context_other by decided.
    apply lookup_union_Some_l. by simplify_map_eq.
Qed.

Lemma context_precedence_witness :
  ("x" ∉ engine_names)
  /\ exec traced_engine (include traced_engine traced_fs 1) ∅
       {[ "x" := VNumber 0; "y" := VNumber 2 ]} 10000
       (Await_include "x" {[ "x" := VNumber 1 ]} (fun r => Ret (text_of r)))
       ∅ start =
     (Resolved (literal "1"),
      next_context
        (snd (load_template traced_engine traced_fs
                "/srv/app/views/x.template" start))).
Proof.
  assert (H : "x" ∉ engine_names) by decided.
  split; [exact H|].
  destruct (context_precedence traced_engine
              {[ "x" := VNumber 0; "y" := VNumber 2 ]} {[ "x" := VNumber 1 ]}
              "/srv/app/views/x.template" "template" "x" H)
    as (_ & _ & _ & _ & _ & Hchild & _).
  assert (Hname : "x" <> "export_var") by done.
  assert (Hpath : template_path traced_engine
            (settings_of traced_engine start
               ({[ "x" := VNumber 1 ]} ∪
                {[ "x" := VNumber 0; "y" := VNumber 2 ]})) "x" =
            Ok ("/srv/app/views/x.template", "template")) by run.
  assert (Hload : load_template traced_engine traced_fs
                    "/srv/app/views/x.template" start =
                  (Loaded,
                   snd (load_template traced_engine traced_fs
                          "/srv/app/views/x.template" start))) by run.
  assert (Hentry : file_cache
                     (snd (load_template traced_engine traced_fs
                             "/srv/app/views/x.template" start))
                     !! "/srv/app/views/x.template" =
                   Some {| mtime := 1700000000000; script := x_program |})
    by run.
  assert (Hv : ({[ "x" := VNumber 1 ]} ∪
                ({[ "x" := VNumber 0; "y" := VNumber 2 ]} ∪
                 always_inject traced_engine)) !! "x" = Some (VNumber 1))
    by run.
  exact (Hchild traced_fs 0%nat ∅ 10000 "x"
           (fun v => literal (text_of v)) text_of ∅ start _ _ (VNumber 1)
           Hname Hpath Hload Hentry eq_refl eq_refl Hv).
Defined.

(** The parent rendered with {x: 0, y: 2}: the child writes
    what it sees. *)
Example render_parent_child :
  fst (render demo_engine demo_fs 2 "parent"
         {[ "x" := VNumber 0; "y" := VNumber 2 ]} start) =
    Resolved (literal (literal "1,2")).
Proof. run. Qed.

(** ** [set] and [get] *)



(** ** [export_var] and [import_vars] *)




Lemma load_template_body_frame (E : Engine) (fs : gmap string File)
    (filepath : string) (w : World) :
  heap (snd (load_template_body E fs filepath w)) = heap w.
Proof.
  unfold load_template_body. repeat (case_match; simpl; try done).
Qed.

(** Loading touches no object. *)
Lemma load_template_heap (E : Engine) (fs : gmap string File)
    (filepath : string) (w : World) :
  heap (snd (load_template E fs filepath w)) = heap w.
Proof.
  unfold load_template. case_bool_decide; [done|].
  pose proof (load_template_body_frame E fs filepath
                (set_held ({[filepath]} ∪ held w) w)) as Hbody.
  by destruct (load_template_body _ _ _ _) as [r w1].
Qed.

Lemma js_write_other (key key' : string) (val : value)
    (o : gmap string value) :
  key' <> key -> js_write key val o !! key' = o !! key'.
Proof.
  intros Hne. unfold js_write. repeat case_match; try done;
    by rewrite lookup_insert_ne.
Qed.


Lemma bag_after_other (bindings : list (string * value))
    (bag : gmap string value) (key : string) :
  key ∉ bindings.*1 -> bag_after bindings bag !! key = bag !! key.
Proof.
  revert bag. induction bindings as [|[k v] rest IH]; intros bag Hkey; [done|].
  simpl in *. apply not_elem_of_cons in Hkey as [Hne Hrest].
  unfold bag_after in *. simpl. rewrite IH by done.
  by apply js_write_other.
Qed.








(** ** What an object holds is what was exported into it *)









(** The importer of the examples, rendered: the strings end up in its
    store, and no text of the imported template in its output. *)
Example render_importer :
  fst (render demo_engine demo_fs 2 "hello" ∅ start) = Resolved (literal "").
Proof. run. Qed.

(** ** The timer *)

(** X10: a render whose template has given the event loop back and is not
    settled when the render's timer fires is rejected with the error of
    line 76, which names the file; no text comes out, and the clock stands
    at the time the timer was due. *)
Lemma render_times_out (E : Engine) (fs : gmap string File) (n : nat)
    (name : string) (options : gmap string value) (w w2 w3 : World)
    (filepath ext : string) (entry : CacheEntry) :
  template_path E (settings_of E w options) name = Ok (filepath, ext) ->
  load_template E fs filepath w = (Loaded, w2) ->
  file_cache w2 !! filepath = Some entry ->
  vm_timeout_ok (timeout E) = true ->
  exec E (include E fs n) (make_context E options filepath ext) options
    (clock w2 + timer_delay (timeout E)) (script entry) ∅ (next_context w2) =
    (Pending, w3) ->
  render E fs (S n) name options w =
    (Rejected (normalize E (timeout_error E filepath)),
     set_clock (clock w2 + timer_delay (timeout E)) w3)
  /\ err_message (normalize E (timeout_error E filepath)) =
       "Rendering " +:+ filepath +:+ " timed out".
Proof.
  intros Hpath Hload Hentry Hvm Hexec. split; [|done].
  unfold render. cbn [include]. rewrite Hpath, Hload.
  unfold run_script. rewrite Hentry, Hvm. simpl. by rewrite Hexec.
Qed.

Example render_wait_template :
  fst (render demo_engine demo_fs 1 "wait" ∅ start) =
    Rejected (timeout_error demo_engine "/srv/app/views/wait.template")
  /\ clock (snd (render demo_engine demo_fs 1 "wait" ∅ start)) = 10000.
Proof. split; run. Qed.

(** A template whose synchronous code does not return keeps the render
    from settling: [call()] does not come back, so the timer's callback is
    never run. *)
Lemma render_hangs (E : Engine) (fs : gmap string File) (n : nat)
    (name : string) (options : gmap string value) (w w2 : World)
    (filepath ext : string) (entry : CacheEntry) :
  template_path E (settings_of E w options) name = Ok (filepath, ext) ->
  load_template E fs filepath w = (Loaded, w2) ->
  file_cache w2 !! filepath = Some entry ->
  vm_timeout_ok (timeout E) = true ->
  script entry = Spin ->
  render E fs (S n) name options w = (Hang, next_context w2).
Proof.
  intros Hpath Hload Hentry Hvm Hspin.
  unfold render. cbn [include]. rewrite Hpath, Hload.
  unfold run_script. by rewrite Hentry, Hvm, Hspin.
Qed.

(** C3, on a template whose expression loops for ever: the render is not
    rejected with a timeout error, nor settled in any other way; the clock
    of the model stands where it stood. *)
Theorem spin_template_never_times_out :
  fst (render demo_engine demo_fs 1 "spin" ∅ start) = Hang
  /\ clock (snd (render demo_engine demo_fs 1 "spin" ∅ start)) = clock start
  /\ file_cache (snd (render demo_engine demo_fs 1 "spin" ∅ start))
       !! "/srv/app/views/spin.template" =
     Some {| mtime := 1700000000000; script := Spin |}.
Proof. repeat split; run. Qed.

(** ** The engine at work on the README's names *)

Example context_identity :
  let ctx := make_context demo_engine ∅ "/srv/app/views/hello.template"
               "template" in
  ctx !! "__template" = Some (VString "hello")
  /\ ctx !! "__filename" = Some (VString "/srv/app/views/hello.template")
  /\ ctx !! "__dirname" = Some (VString "/srv/app/views")
  /\ ctx !! "lang" = Some (VString "english").
Proof. repeat split; run. Qed.

Example preload_compiles_each_once :
  exists w : World,
    preload demo_engine demo_fs ["child"; "parent"; "child"] start = Preloaded w
    /\ compile_count w = 2%nat /\ held w = ∅.
Proof. eexists. split; [run|]. split; run. Qed.

(** A name in [params.preload] whose file does not compile: the rejection
    of its load is handled nowhere. *)
Example preload_of_a_broken_template :
  exists w : World,
    preload demo_engine demo_fs ["broken"; "child"] start =
      Unhandled syntax_error w.
Proof. eexists. run. Qed.

(** * Further properties of the engine *)

(** ** The error filter, applied more than once *)

Lemma filter_all_kept (f : string -> bool) (lines : list string) :
  Forall (fun l => f l = true) lines -> List.filter f lines = lines.
Proof.
  induction 1 as [|l ls Hl Hls IH]; simpl; [done|]. by rewrite Hl, IH.
Qed.

(** A stack whose lines after the first are no engine frames is a fixed
    point of the filter. *)
Lemma normalize_stack_fixed (E : Engine) (stack : string) :
  Forall (fun line => engine_frame E line = false)
    (List.tl (split LF stack)) ->
  normalize_stack E stack = stack.
Proof.
  intros Hclean. unfold normalize_stack.
  pose proof (split_not_nil LF stack) as Hnil.
  pose proof (join_split LF stack) as Hjoin.
  destruct (split LF stack) as [|first rest]; [done|].
  rewrite filter_indexed_first, filter_all_kept; [done|].
  simpl in Hclean. eapply Forall_impl; [exact Hclean|].
  intros l Hl. simpl. by rewrite Hl.
Qed.


(** X2: an error whose stack has no engine frame after its first line
    leaves the catch clause as it came: name, message and stack. *)
Theorem normalize_leaves_clean_error (E : Engine) (e : error) :
  Forall (fun line => engine_frame E line = false)
    (List.tl (split LF (err_stack e))) ->
  normalize E e = e.
Proof.
  intros Hclean. destruct e as [name message stack]. unfold normalize.
  simpl in *. by rewrite normalize_stack_fixed.
Qed.

Lemma normalize_leaves_clean_error_witness :
  Forall (fun line => engine_frame demo_engine line = false)
    (List.tl (split LF (err_stack whoops_surfaced)))
  /\ normalize demo_engine whoops_surfaced = whoops_surfaced.
Proof.
  assert (H : Forall (fun line => engine_frame demo_engine line = false)
                (List.tl (split LF (err_stack whoops_surfaced))))
    by (vm_compute; repeat constructor).
  split; [exact H|]. exact (normalize_leaves_clean_error _ _ H).
Defined.

(** ** The file name of line 53 *)

(** X3: the name handed to [path.resolve] always ends with the extension,
    and giving a name its extension twice is giving it once: nothing is
    appended to a name that came out of the rule. *)
Theorem with_extension_settles (name ext : string) :
  endsWith (with_extension name ext) ext = true
  /\ with_extension (with_extension name ext) ext = with_extension name ext.
Proof.
  assert (H : endsWith (with_extension name ext) ext = true).
  { unfold with_extension. destruct (endsWith name ext) eqn:Hends; [done|].
    change (name +:+ "." +:+ ext) with (name +:+ ("." +:+ ext)).
    rewrite <- (app_assoc_str name "." ext). apply endsWith_app. }
  split; [exact H|]. unfold with_extension at 1. by rewrite H.
Qed.

(** ** What a load changes and what it leaves *)

(** X4: whatever its outcome, a load leaves alone the cache entries of all
    other paths, the locks, the objects, the clock and the context counter:
    it can only replace or drop the entry of its own path, add a log
    message and call the file system and the compiler. *)
Theorem load_template_touches_own_entry (E : Engine) (fs : gmap string File)
    (filepath : string) (w : World) :
  (forall other : string, other <> filepath ->
     file_cache (snd (load_template E fs filepath w)) !! other =
       file_cache w !! other)
  /\ held (snd (load_template E fs filepath w)) = held w
  /\ heap (snd (load_template E fs filepath w)) = heap w
  /\ clock (snd (load_template E fs filepath w)) = clock w
  /\ context_index (snd (load_template E fs filepath w)) = context_index w.
Proof.
  split; [|split; [apply load_template_held|
                   split; [apply load_template_heap|]]].
  - intros other Hne. unfold load_template. case_bool_decide; [done|].
    unfold load_template_body. cbn [file_cache record_event set_held].
    destruct (fs !! filepath) as [file|]; [|done].
    destruct (must_compile (file_cache w) filepath (f_mtime file)); [|done].
    destruct (f_content file) as [content|]; [|done].
    destruct (vm_Script E filepath content) as [compiled|e];
      [destruct (logger E _)|]; simpl;
      by rewrite ?lookup_insert_ne, lookup_delete_ne.
  - unfold load_template. case_bool_decide; [done|].
    unfold load_template_body. cbn [file_cache record_event set_held].
    destruct (fs !! filepath) as [file|]; [|done].
    destruct (must_compile (file_cache w) filepath (f_mtime file)); [|done].
    destruct (f_content file) as [content|]; [|done].
    by destruct (vm_Script E filepath content) as [compiled|e];
      [destruct (logger E _)|].
Qed.

(** X5: a stale entry is dropped before the new content is compiled.  When
    the compiler throws, the load fails with the compiler's error and the
    path has no entry any more, even if an older version was cached; when
    the file cannot be read, the load fails before that and the old entry
    stays. *)
Theorem failed_reload_and_the_old_entry (E : Engine) (fs : gmap string File)
    (filepath : string) (w : World) (file : File) :
  filepath ∉ held w -> fs !! filepath = Some file ->
  must_compile (file_cache w) filepath (f_mtime file) = true ->
  (forall content e,
     f_content file = Some content ->
     vm_Script E filepath content = Thrown e ->
     fst (load_template E fs filepath w) = Failed e
     /\ file_cache (snd (load_template E fs filepath w)) !! filepath = None)
  /\ (f_content file = None ->
      fst (load_template E fs filepath w) =
        Failed (fs_error E "EACCES: permission denied" "open" filepath)
      /\ file_cache (snd (load_template E fs filepath w)) = file_cache w
      /\ compile_count (snd (load_template E fs filepath w)) = compile_count w).
Proof.
  intros Hfree Hfile Hstale. unfold load_template.
  rewrite bool_decide_eq_false_2 by done.
  unfold load_template_body. cbn [file_cache record_event set_held].
  rewrite Hfile, Hstale. split.
  - intros content e -> ->. simpl. split; [done|]. apply lookup_delete_eq.
  - by intros ->.
Qed.

Lemma failed_reload_and_the_old_entry_witness :
  ("/srv/app/views/broken.template" ∉ held cached_old)
  /\ is_Some (file_cache cached_old !! "/srv/app/views/broken.template")
  /\ fst (load_template demo_engine demo_fs "/srv/app/views/broken.template"
            cached_old) = Failed syntax_error
  /\ file_cache (snd (load_template demo_engine demo_fs
                        "/srv/app/views/broken.template" cached_old))
       !! "/srv/app/views/broken.template" = None.
Proof.
  assert (Hfree : "/srv/app/views/broken.template" ∉ held cached_old)
    by (simpl; apply not_elem_of_empty).
  assert (Hfile : demo_fs !! "/srv/app/views/broken.template" =
                    Some (demo_file broken_template)) by run.
  assert (Hstale : must_compile (file_cache cached_old)
                     "/srv/app/views/broken.template"
                     (f_mtime (demo_file broken_template)) = true) by run.
  destruct (failed_reload_and_the_old_entry demo_engine demo_fs
              "/srv/app/views/broken.template" cached_old
              (demo_file broken_template) Hfree Hfile Hstale)
    as [Hcompile _].
  assert (Hthrown : vm_Script demo_engine "/srv/app/views/broken.template"
                      broken_template = Thrown syntax_error) by run.
  destruct (Hcompile broken_template syntax_error eq_refl Hthrown)
    as [Hfailed Hgone].
  split; [exact Hfree|]. split; [|split; [exact Hfailed|exact Hgone]].
  eexists. run.
Defined.

(** X6: a load that compiles stores the file's modification time with the
    compiled script under the path and logs one message, Loaded when the
    path had no entry and Reloaded when it had one; a load that finds the
    entry current logs nothing. *)
Theorem load_template_stores_and_logs (E : Engine) (fs : gmap string File)
    (filepath : string) (w : World) (file : File) :
  filepath ∉ held w -> fs !! filepath = Some file ->
  (forall content compiled v,
     must_compile (file_cache w) filepath (f_mtime file) = true ->
     f_content file = Some content ->
     vm_Script E filepath content = Ok compiled ->
     logger E (load_message (new_template (file_cache w) filepath) filepath)
       = Ok v ->
     fst (load_template E fs filepath w) = Loaded
     /\ file_cache (snd (load_template E fs filepath w)) =
          <[filepath := {| mtime := f_mtime file; script := compiled |}]>
            (file_cache w)
     /\ logged (snd (load_template E fs filepath w)) =
          load_message (new_template (file_cache w) filepath) filepath
            :: logged w
     /\ (file_cache w !! filepath = None ->
         load_message (new_template (file_cache w) filepath) filepath =
           "Loaded template " +:+ filepath)
     /\ (is_Some (file_cache w !! filepath) ->
         load_message (new_template (file_cache w) filepath) filepath =
           "Reloaded template " +:+ filepath))
  /\ (must_compile (file_cache w) filepath (f_mtime file) = false ->
      logged (snd (load_template E fs filepath w)) = logged w).
Proof.
  intros Hfree Hfile. unfold load_template.
  rewrite bool_decide_eq_false_2 by done.
  unfold load_template_body. cbn [file_cache record_event set_held].
  rewrite Hfile. split.
  - intros content compiled v -> -> -> Hlog. cbn [file_cache record_event
      set_file_cache]. rewrite Hlog. simpl.
    split; [done|]. split; [by rewrite insert_delete_eq|]. split; [done|].
    unfold load_message, new_template. split.
    + by intros ->.
    + by intros [entry ->].
  - by intros ->.
Qed.

Lemma load_template_stores_and_logs_witness :
  ("/srv/app/views/child.template" ∉ held start)
  /\ demo_fs !! "/srv/app/views/child.template" =
       Some (demo_file child_template)
  /\ file_cache (snd (load_template demo_engine demo_fs
                        "/srv/app/views/child.template" start)) =
       <["/srv/app/views/child.template" :=
           {| mtime := f_mtime (demo_file child_template);
              script := child_program |}]> (file_cache start)
  /\ logged (snd (load_template demo_engine demo_fs
                    "/srv/app/views/child.template" start)) =
       ["Loaded template /srv/app/views/child.template"].
Proof.
  assert (Hfree : "/srv/app/views/child.template" ∉ held start)
    by (simpl; apply not_elem_of_empty).
  assert (Hfile : demo_fs !! "/srv/app/views/child.template" =
                    Some (demo_file child_template)) by run.
  destruct (load_template_stores_and_logs demo_engine demo_fs
              "/srv/app/views/child.template" start
              (demo_file child_template) Hfree Hfile) as [Hstore _].
  assert (Hstale : must_compile (file_cache start)
                     "/srv/app/views/child.template"
                     (f_mtime (demo_file child_template)) = true) by run.
  assert (Hok : vm_Script demo_engine "/srv/app/views/child.template"
                  child_template = Ok child_program) by run.
  destruct (Hstore child_template child_program (VString "") Hstale eq_refl
              Hok eq_refl) as (_ & Hcache & Hlogged & _).
  split; [exact Hfree|]. split; [exact Hfile|]. split; [exact Hcache|].
  exact Hlogged.
Defined.

Lemma unlock_after_lock (filepath : string) (locked : gset string) :
  filepath ∉ locked -> ({[filepath]} ∪ locked) ∖ {[filepath]} = locked.
Proof.
  intros Hfree. apply set_eq. intros x.
  rewrite elem_of_difference, elem_of_union, elem_of_singleton.
  split; [tauto|]. intros Hx. split; [tauto|]. by intros ->.
Qed.

(** A load that succeeded has found the file and left an entry with the
    file's modification time. *)
Lemma load_template_loaded_some (E : Engine) (fs : gmap string File)
    (filepath : string) (w w' : World) :
  load_template E fs filepath w = (Loaded, w') ->
  exists entry file,
    fs !! filepath = Some file
    /\ file_cache w' !! filepath = Some entry
    /\ mtime entry = f_mtime file.
Proof.
  intros Hload.
  assert (Hfile : exists file, fs !! filepath = Some file).
  { unfold load_template in Hload. case_bool_decide; [done|].
    unfold load_template_body in Hload.
    destruct (fs !! filepath) as [file|]; [by exists file|done]. }
  destruct Hfile as [file Hfile].
  pose proof (load_template_loaded_current E fs filepath w w' file Hfile Hload)
    as Hcurrent.
  unfold must_compile, new_template in Hcurrent.
  destruct (file_cache w' !! filepath) as [entry|]; [|done].
  exists entry, file. repeat split; try done.
  simpl in Hcurrent. apply negb_false_iff, Z.eqb_eq in Hcurrent. done.
Qed.

(** X7: when the logger throws on the message of line 36, the load fails
    with the logger's error although the compiled script is already in the
    cache; the next load of the path succeeds without compiling and without
    calling the logger. *)
Theorem throwing_logger_fails_one_load (E : Engine) (fs : gmap string File)
    (filepath : string) (w : World) (file : File) (content : string)
    (compiled : tmpl) (e : error) :
  filepath ∉ held w -> fs !! filepath = Some file ->
  must_compile (file_cache w) filepath (f_mtime file) = true ->
  f_content file = Some content ->
  vm_Script E filepath content = Ok compiled ->
  logger E (load_message (new_template (file_cache w) filepath) filepath) =
    Thrown e ->
  fst (load_template E fs filepath w) = Failed e
  /\ file_cache (snd (load_template E fs filepath w)) !! filepath =
       Some {| mtime := f_mtime file; script := compiled |}
  /\ logged (snd (load_template E fs filepath w)) = logged w
  /\ fst (load_template E fs filepath (snd (load_template E fs filepath w))) =
       Loaded
  /\ compile_count
       (snd (load_template E fs filepath (snd (load_template E fs filepath w))))
     = compile_count (snd (load_template E fs filepath w))
  /\ logged
       (snd (load_template E fs filepath (snd (load_template E fs filepath w))))
     = logged w.
Proof.
  intros Hfree Hfile Hstale Hcontent Hcompiled Hlog.
  assert (Hfirst : fst (load_template E fs filepath w) = Failed e
    /\ file_cache (snd (load_template E fs filepath w)) !! filepath =
         Some {| mtime := f_mtime file; script := compiled |}
    /\ logged (snd (load_template E fs filepath w)) = logged w).
  { unfold load_template. rewrite bool_decide_eq_false_2 by done.
    unfold load_template_body. cbn [file_cache record_event set_held].
    rewrite Hfile, Hstale, Hcontent, Hcompiled.
    cbn [file_cache record_event set_file_cache]. rewrite Hlog. simpl.
    split; [done|]. split; [apply lookup_insert_eq|done]. }
  destruct Hfirst as (Hfailed & Hentry & Hlogged).
  split; [done|]. split; [done|]. split; [done|].
  set (w1 := snd (load_template E fs filepath w)) in *.
  assert (Hfree1 : filepath ∉ held w1)
    by (unfold w1; by rewrite load_template_held).
  assert (Hcurrent : must_compile (file_cache w1) filepath (f_mtime file)
                     = false).
  { unfold must_compile, new_template. rewrite Hentry. simpl.
    by rewrite Z.eqb_refl. }
  destruct (load_template_current E fs filepath w1 file Hfree1 Hfile Hcurrent)
    as (Hloaded & Hcache & Hevents).
  split; [done|]. split.
  - by destruct (count_after_stat _ _ _ Hevents).
  - rewrite <- Hlogged. unfold load_template.
    rewrite bool_decide_eq_false_2 by done. unfold load_template_body.
    cbn [file_cache record_event set_held]. by rewrite Hfile, Hcurrent.
Qed.

Lemma throwing_logger_fails_one_load_witness :
  fst (load_template failing_logger_engine demo_fs
         "/srv/app/views/child.template" start) = Failed log_failure
  /\ fst (load_template failing_logger_engine demo_fs
            "/srv/app/views/child.template"
            (snd (load_template failing_logger_engine demo_fs
                    "/srv/app/views/child.template" start))) = Loaded
  /\ compile_count
       (snd (load_template failing_logger_engine demo_fs
               "/srv/app/views/child.template"
               (snd (load_template failing_logger_engine demo_fs
                       "/srv/app/views/child.template" start)))) = 1%nat.
Proof.
  assert (Hfree : "/srv/app/views/child.template" ∉ held start)
    by (simpl; apply not_elem_of_empty).
  assert (Hfile : demo_fs !! "/srv/app/views/child.template" =
                    Some (demo_file child_template)) by run.
  assert (Hstale : must_compile (file_cache start)
                     "/srv/app/views/child.template"
                     (f_mtime (demo_file child_template)) = true) by run.
  assert (Hok : vm_Script failing_logger_engine
                  "/srv/app/views/child.template" child_template =
                Ok child_program) by run.
  destruct (throwing_logger_fails_one_load failing_logger_engine demo_fs
              "/srv/app/views/child.template" start
              (demo_file child_template) child_template child_program
              log_failure Hfree Hfile Hstale eq_refl Hok eq_refl)
    as (Hfailed & _ & _ & Hloaded & Hcount & _).
  split; [exact Hfailed|]. split; [exact Hloaded|].
  rewrite Hcount. run.
Defined.

(** ** Renders that are rejected before the template runs *)

(** X8: a render of a name whose file does not exist is rejected with the
    error of [stat]; nothing is read or compiled, no entry appears, the
    lock is free again and no context is made. *)
Theorem render_missing_file (E : Engine) (fs : gmap string File) (n : nat)
    (name : string) (options : gmap string value) (w : World)
    (filepath ext : string) :
  template_path E (settings_of E w options) name = Ok (filepath, ext) ->
  filepath ∉ held w -> fs !! filepath = None ->
  fst (render E fs (S n) name options w) =
    Rejected (normalize E (fs_error E "ENOENT: no such file or directory"
                             "stat" filepath))
  /\ file_cache (snd (render E fs (S n) name options w)) = file_cache w
  /\ held (snd (render E fs (S n) name options w)) = held w
  /\ read_count (snd (render E fs (S n) name options w)) = read_count w
  /\ compile_count (snd (render E fs (S n) name options w)) = compile_count w
  /\ context_index (snd (render E fs (S n) name options w)) = context_index w.
Proof.
  intros Hpath Hfree Hnone. unfold render. cbn [include]. rewrite Hpath.
  unfold load_template. rewrite bool_decide_eq_false_2 by done.
  unfold load_template_body. rewrite Hnone. simpl.
  repeat split; try done. by apply unlock_after_lock.
Qed.

Lemma render_missing_file_witness :
  template_path demo_engine (settings_of demo_engine start ∅) "none" =
    Ok ("/srv/app/views/none.template", "template")
  /\ ("/srv/app/views/none.template" ∉ held start)
  /\ demo_fs !! "/srv/app/views/none.template" = None
  /\ fst (render demo_engine demo_fs 1 "none" ∅ start) =
       Rejected (normalize demo_engine
                   (fs_error demo_engine "ENOENT: no such file or directory"
                      "stat" "/srv/app/views/none.template"))
  /\ file_cache (snd (render demo_engine demo_fs 1 "none" ∅ start)) =
       file_cache start.
Proof.
  assert (Hpath : template_path demo_engine (settings_of demo_engine start ∅)
                    "none" = Ok ("/srv/app/views/none.template", "template"))
    by run.
  assert (Hfree : "/srv/app/views/none.template" ∉ held start)
    by (simpl; apply not_elem_of_empty).
  assert (Hnone : demo_fs !! "/srv/app/views/none.template" = None) by run.
  destruct (render_missing_file demo_engine demo_fs 0 "none" ∅ start
              "/srv/app/views/none.template" "template" Hpath Hfree Hnone)
    as (Hrejected & Hcache & _).
  split; [exact Hpath|]. split; [exact Hfree|]. split; [exact Hnone|].
  split; [exact Hrejected|exact Hcache].
Defined.

(** X9: an engine made with a timeout that [runInNewContext] refuses (zero,
    negative, or above 2^32 - 1) rejects every render whose template loads
    with the RangeError of that call; the template is not run. *)
Theorem invalid_timeout_rejects_render (E : Engine) (fs : gmap string File)
    (n : nat) (name : string) (options : gmap string value) (w w2 : World)
    (filepath ext : string) :
  vm_timeout_ok (timeout E) = false ->
  template_path E (settings_of E w options) name = Ok (filepath, ext) ->
  load_template E fs filepath w = (Loaded, w2) ->
  render E fs (S n) name options w =
    (Rejected (normalize E (timeout_range_error E)), next_context w2).
Proof.
  intros Hvm Hpath Hload.
  destruct (load_template_loaded_some E fs filepath w w2 Hload)
    as (entry & file & _ & Hentry & _).
  unfold render. cbn [include]. rewrite Hpath, Hload.
  unfold run_script. by rewrite Hentry, Hvm.
Qed.

Lemma invalid_timeout_rejects_render_witness :
  vm_timeout_ok (timeout zero_timeout_engine) = false
  /\ fst (render zero_timeout_engine demo_fs 1 "child"
            {[ "x" := VNumber 0; "y" := VNumber 2 ]} start) =
       Rejected (normalize zero_timeout_engine
                   (timeout_range_error zero_timeout_engine)).
Proof.
  assert (Hvm : vm_timeout_ok (timeout zero_timeout_engine) = false) by run.
  assert (Hpath : template_path zero_timeout_engine
            (settings_of zero_timeout_engine start
               {[ "x" := VNumber 0; "y" := VNumber 2 ]}) "child" =
            Ok ("/srv/app/views/child.template", "template")) by run.
  assert (Hload : load_template zero_timeout_engine demo_fs
            "/srv/app/views/child.template" start =
            (Loaded, snd (load_template zero_timeout_engine demo_fs
                            "/srv/app/views/child.template" start))) by run.
  split; [exact Hvm|].
  rewrite (invalid_timeout_rejects_render zero_timeout_engine demo_fs 0
             "child" _ start _ _ _ Hvm Hpath Hload).
  reflexivity.
Defined.

Lemma render_times_out_witness :
  let p := "/srv/app/views/wait.template" in
  let w2 := snd (load_template demo_engine demo_fs p start) in
  template_path demo_engine (settings_of demo_engine start ∅) "wait" =
    Ok (p, "template")
  /\ load_template demo_engine demo_fs p start = (Loaded, w2)
  /\ vm_timeout_ok (timeout demo_engine) = true
  /\ render demo_engine demo_fs 1 "wait" ∅ start =
       (Rejected (normalize demo_engine (timeout_error demo_engine p)),
        set_clock (clock w2 + timer_delay (timeout demo_engine))
          (next_context w2))
  /\ err_message (normalize demo_engine (timeout_error demo_engine p)) =
       "Rendering /srv/app/views/wait.template timed out".
Proof.
  intros p w2.
  assert (Hpath : template_path demo_engine (settings_of demo_engine start ∅)
                    "wait" = Ok (p, "template")) by run.
  assert (Hload : load_template demo_engine demo_fs p start = (Loaded, w2))
    by run.
  assert (Hentry : file_cache w2 !! p =
                     Some {| mtime := 1700000000000; script := Forever |})
    by run.
  assert (Hvm : vm_timeout_ok (timeout demo_engine) = true) by run.
  destruct (render_times_out demo_engine demo_fs 0 "wait" ∅ start w2
              (next_context w2) p "template" _ Hpath Hload Hentry Hvm eq_refl)
    as [Hrender Hmessage].
  split; [exact Hpath|]. split; [exact Hload|]. split; [exact Hvm|].
  split; [exact Hrender|exact Hmessage].
Defined.

(** ** The identity a template is given *)

Lemma length_app_str (a b : string) :
  String.length (a +:+ b) = (String.length a + String.length b)%nat.
Proof.
  induction a as [|c a IH]; [done|]. rewrite app_cons. simpl. by rewrite IH.
Qed.

Lemma take_chars_app (a b : string) :
  take_chars (String.length a) (a +:+ b) = a.
Proof.
  induction a as [|c a IH]; [by destruct b|].
  rewrite app_cons. simpl. by rewrite IH.
Qed.

(** The base name of a path whose last segment is [name] followed by a
    suffix is [name], when there is a name. *)
Lemma basename_strips_suffix (dir name suffix : string) :
  free_of SLASH (name +:+ suffix) = true -> name <> "" -> suffix <> "" ->
  basename (dir +:+ String SLASH (name +:+ suffix)) suffix = name.
Proof.
  intros Hfree Hname Hsuffix. unfold basename.
  rewrite split_app_sep, (split_of_free _ _ Hfree), last_last.
  rewrite (bool_decide_eq_false_2 (suffix = "")) by done.
  rewrite endsWith_app. simpl.
  rewrite bool_decide_eq_false_2.
  - rewrite length_app_str.
    replace (String.length name + String.length suffix
             - String.length suffix)%nat with (String.length name) by lia.
    apply take_chars_app.
  - intros Heq. apply (f_equal String.length) in Heq.
    rewrite length_app_str in Heq. destruct name; [done|]. simpl in Heq. lia.
Qed.

Lemma dirname_drops_last (dir base : string) :
  free_of SLASH base = true ->
  dirname (String SLASH dir +:+ String SLASH base) = String SLASH dir.
Proof.
  intros Hfree. unfold dirname.
  rewrite split_app_sep, (split_of_free _ _ Hfree), removelast_last.
  rewrite join_split. by rewrite bool_decide_eq_false_2.
Qed.

(** X11: a name without the extension that is resolved under the views
    directory comes back in the context.  For a name of one segment
    [__template] is the name and [__dirname] the views directory; for a
    name with directories in front, [sub/name], [__template] is the last
    segment only and [__dirname] the directory of the file, below the views
    directory.  [__filename] is the path the cache and the lock are keyed
    by. *)
Theorem context_names_the_template (E : Engine) (options : gmap string value)
    (dir name ext : string) :
  plain_path dir = true ->
  free_of SLASH (name +:+ "." +:+ ext) = true ->
  name <> "" ->
  (plain_path (name +:+ "." +:+ ext) = true -> endsWith name ext = false ->
   exists filepath,
     template_path E (VString ext, VString ("/" +:+ dir)) name =
       Ok (filepath, ext)
     /\ filepath = "/" +:+ dir +:+ "/" +:+ name +:+ "." +:+ ext
     /\ make_context E options filepath ext !! "__template" =
          Some (VString name)
     /\ make_context E options filepath ext !! "__dirname" =
          Some (VString ("/" +:+ dir))
     /\ make_context E options filepath ext !! "__filename" =
          Some (VString filepath))
  /\ (forall sub : string,
      plain_path (sub +:+ "/" +:+ name +:+ "." +:+ ext) = true ->
      endsWith (sub +:+ "/" +:+ name) ext = false ->
      exists filepath,
        template_path E (VString ext, VString ("/" +:+ dir))
          (sub +:+ "/" +:+ name) = Ok (filepath, ext)
        /\ filepath =
             "/" +:+ dir +:+ "/" +:+ sub +:+ "/" +:+ name +:+ "." +:+ ext
        /\ make_context E options filepath ext !! "__template" =
             Some (VString name)
        /\ make_context E options filepath ext !! "__dirname" =
             Some (VString ("/" +:+ dir +:+ "/" +:+ sub))
        /\ make_context E options filepath ext !! "__filename" =
             Some (VString filepath)).
Proof.
  intros Hdir Hfree Hname. split.
  - intros Hplain Hends.
    exists ("/" +:+ dir +:+ "/" +:+ name +:+ "." +:+ ext).
    split; [|split; [done|]].
    + unfold template_path. simpl. rewrite with_extension_missing by done.
      by rewrite path_resolve_plain.
    + unfold make_context. split; [|split]; simplify_map_eq; f_equal; f_equal.
      * change ("/" +:+ dir +:+ "/" +:+ name +:+ "." +:+ ext)
          with (("/" +:+ dir) +:+ String SLASH (name +:+ ("." +:+ ext))).
        by apply basename_strips_suffix.
      * change ("/" +:+ dir +:+ "/" +:+ name +:+ "." +:+ ext)
          with (String SLASH dir +:+ String SLASH (name +:+ "." +:+ ext)).
        by apply dirname_drops_last.
  - intros sub Hplain Hends.
    exists ("/" +:+ dir +:+ "/" +:+ sub +:+ "/" +:+ name +:+ "." +:+ ext).
    assert (Hwith : with_extension (sub +:+ "/" +:+ name) ext =
                      sub +:+ "/" +:+ name +:+ "." +:+ ext).
    { rewrite with_extension_missing by done.
      rewrite app_assoc_str. f_equal. }
    split; [|split; [done|]].
    + unfold template_path. simpl. rewrite Hwith.
      by rewrite path_resolve_plain.
    + unfold make_context. split; [|split]; simplify_map_eq; f_equal; f_equal.
      * replace ("/" +:+ dir +:+ "/" +:+ sub +:+ "/" +:+ name +:+ "." +:+ ext)
          with (("/" +:+ dir +:+ "/" +:+ sub)
                +:+ String SLASH (name +:+ ("." +:+ ext))).
        -- by apply basename_strips_suffix.
        -- change ("/" +:+ dir +:+ "/" +:+ sub)
             with (String SLASH (dir +:+ "/" +:+ sub)).
           rewrite !app_cons, !app_assoc_str. reflexivity.
      * replace ("/" +:+ dir +:+ "/" +:+ sub +:+ "/" +:+ name +:+ "." +:+ ext)
          with (String SLASH (dir +:+ "/" +:+ sub)
                +:+ String SLASH (name +:+ "." +:+ ext)).
        -- by apply dirname_drops_last.
        -- rewrite !app_cons, !app_assoc_str. reflexivity.
Qed.

Lemma context_names_the_template_witness :
  (exists filepath,
     template_path demo_engine (VString "template", VString "/srv/app/views")
       "hello" = Ok (filepath, "template")
     /\ filepath = "/srv/app/views/hello.template"
     /\ make_context demo_engine ∅ filepath "template" !! "__template" =
          Some (VString "hello")
     /\ make_context demo_engine ∅ filepath "template" !! "__dirname" =
          Some (VString "/srv/app/views")
     /\ make_context demo_engine ∅ filepath "template" !! "__filename" =
          Some (VString filepath))
  /\ (exists filepath,
        template_path demo_engine
          (VString "template", VString "/srv/app/views") "mail/hello" =
          Ok (filepath, "template")
        /\ filepath = "/srv/app/views/mail/hello.template"
        /\ make_context demo_engine ∅ filepath "template" !! "__template" =
             Some (VString "hello")
        /\ make_context demo_engine ∅ filepath "template" !! "__dirname" =
             Some (VString "/srv/app/views/mail")
        /\ make_context demo_engine ∅ filepath "template" !! "__filename" =
             Some (VString filepath)).
Proof.
  assert (Hname : ("hello" : string) <> "") by done.
  destruct (context_names_the_template demo_engine ∅ "srv/app/views" "hello"
              "template" eq_refl eq_refl Hname) as [Hone Hsub].
  split; [exact (Hone eq_refl eq_refl)|].
  exact (Hsub "mail" eq_refl eq_refl).
Defined.

(** ** Settings that come with the options *)

(** X12: when the options carry a settings object that has a views
    directory and no view engine, the engine's own extension is not used
    in its place: the extension is the text [undefined], so a name that
    does not end with it is searched with [.undefined] appended, be it
    relative or the absolute path Express passes. *)
Theorem missing_view_engine_is_undefined (E : Engine) (w : World)
    (options o : gmap string value) (l : nat) (dir name : string) :
  options !! "settings" = Some (VObject l) ->
  heap w !! l = Some o ->
  o !! "view engine" = None ->
  o !! "views" = Some (VString ("/" +:+ dir)) ->
  endsWith name "undefined" = false ->
  plain_path dir = true ->
  (plain_path (name +:+ "." +:+ "undefined") = true ->
   template_path E (settings_of E w options) name =
     Ok ("/" +:+ dir +:+ "/" +:+ name +:+ "." +:+ "undefined", "undefined"))
  /\ (forall rest, name = "/" +:+ rest ->
      plain_path (rest +:+ "." +:+ "undefined") = true ->
      template_path E (settings_of E w options) name =
        Ok (name +:+ "." +:+ "undefined", "undefined")).
Proof.
  intros Hsettings Hheap Hengine Hviews Hends Hdir.
  unfold settings_of. rewrite Hsettings, Hheap. simpl.
  rewrite Hengine, Hviews. unfold template_path. simpl.
  rewrite with_extension_missing by done. split.
  - intros Hplain. by rewrite path_resolve_plain.
  - intros rest -> Hplain.
    change (("/" +:+ rest) +:+ "." +:+ "undefined")
      with ("/" +:+ (rest +:+ "." +:+ "undefined")).
    by rewrite path_resolve_absolute.
Qed.

Lemma missing_view_engine_is_undefined_witness :
  express_options !! "settings" = Some (VObject 0)
  /\ heap express_world !! 0%nat =
       Some {[ "views" := VString "/srv/app/views" ]}
  /\ template_path demo_engine (settings_of demo_engine express_world
                                  express_options)
       "/srv/app/views/hello.template" =
     Ok ("/srv/app/views/hello.template.undefined", "undefined").
Proof.
  assert (Hsettings : express_options !! "settings" = Some (VObject 0))
    by run.
  assert (Hheap : heap express_world !! 0%nat =
                    Some {[ "views" := VString "/srv/app/views" ]}) by run.
  destruct (missing_view_engine_is_undefined demo_engine express_world
              express_options {[ "views" := VString "/srv/app/views" ]} 0
              "srv/app/views" "/srv/app/views/hello.template"
              Hsettings Hheap eq_refl eq_refl eq_refl eq_refl)
    as [_ Habsolute].
  split; [exact Hsettings|]. split; [exact Hheap|].
  exact (Habsolute "srv/app/views/hello.template" eq_refl eq_refl).
Defined.

(** ** Nested renders *)

Lemma load_template_clock (E : Engine) (fs : gmap string File)
    (filepath : string) (w : World) :
  clock (snd (load_template E fs filepath w)) = clock w.
Proof.
  unfold load_template. case_bool_decide; [done|].
  unfold load_template_body. cbn [file_cache record_event set_held].
  destruct (fs !! filepath) as [file|]; [|done].
  destruct (must_compile (file_cache w) filepath (f_mtime file)); [|done].
  destruct (f_content file) as [content|]; [|done].
  by destruct (vm_Script E filepath content) as [compiled|e];
    [destruct (logger E _)|].
Qed.


Lemma include_S (E : Engine) (fs : gmap string File) (fuel : nat)
    (filename : string) (options : gmap string value) (outer : option Z)
    (w : World) :
  include E fs (S fuel) filename options outer w =
    match template_path E (settings_of E w options) filename with
    | Thrown e => (Rejected (normalize E e), w)
    | Ok (filepath, ext) =>
        match load_template E fs filepath w with
        | (Waiting, w) => (Blocked, w)
        | (Failed e, w) => (Rejected (normalize E e), w)
        | (Loaded, w) =>
            match run_script E (include E fs fuel)
                    (make_context E options filepath ext) options filepath
                    outer w with
            | (Rejected e, w') => (Rejected (normalize E e), w')
            | (Threw v, w') => catch_value E v w'
            | r => r
            end
        end
    end.
Proof. reflexivity. Qed.



(** X14: when a template includes another whose evaluation is not settled
    when the outer render's timer fires, the outer render is rejected with
    the timeout error that names the outer template: the timer of the
    nested render was set later and does not get to decide. *)
Theorem nested_timeout_names_the_outer_template (E : Engine)
    (fs : gmap string File) (n : nat) (options overrides : gmap string value)
    (name inner : string) (k : value -> tmpl) (w w2 w3 w4 : World)
    (filepath ext inner_path inner_ext : string)
    (entry inner_entry : CacheEntry) :
  template_path E (settings_of E w options) name = Ok (filepath, ext) ->
  load_template E fs filepath w = (Loaded, w2) ->
  file_cache w2 !! filepath = Some entry ->
  script entry = Await_include inner overrides k ->
  template_path E
    (settings_of E (next_context w2) (nested_options options overrides))
    inner = Ok (inner_path, inner_ext) ->
  load_template E fs inner_path (next_context w2) = (Loaded, w3) ->
  file_cache w3 !! inner_path = Some inner_entry ->
  exec E (include E fs n)
    (make_context E (nested_options options overrides) inner_path inner_ext)
    (nested_options options overrides)
    (clock w2 + timer_delay (timeout E)) (script inner_entry) ∅
    (next_context w3) = (Pending, w4) ->
  vm_timeout_ok (timeout E) = true ->
  render E fs (S (S n)) name options w =
    (Rejected (normalize E (timeout_error E filepath)),
     set_clock (clock w2 + timer_delay (timeout E)) w4).
Proof.
  intros Hpath Hload Hentry Hscript Hinner_path Hinner_load Hinner_entry
    Hinner_exec Hvm.
  assert (Hclock : clock w3 = clock w2).
  { pose proof (load_template_clock E fs inner_path (next_context w2))
      as Hframe.
    by rewrite Hinner_load in Hframe. }
  unfold render.
  rewrite include_S.
  rewrite Hpath, Hload. unfold run_script at 1.
  rewrite Hentry, Hvm, Hscript. cbn [exec clock next_context].
  cbn [include]. rewrite Hinner_path, Hinner_load. unfold run_script.
  rewrite Hinner_entry, Hvm. cbn [clock next_context]. rewrite Hclock.
  rewrite Z.min_id, Hinner_exec, Z.ltb_irrefl. reflexivity.
Qed.

Lemma nested_timeout_names_the_outer_template_witness :
  fst (render nesting_engine nesting_fs 2 "outer_wait" ∅ start) =
    Rejected (normalize nesting_engine
                (timeout_error nesting_engine
                   "/srv/app/views/outer_wait.template"))
  /\ err_message (normalize nesting_engine
                    (timeout_error nesting_engine
                       "/srv/app/views/outer_wait.template")) =
       "Rendering /srv/app/views/outer_wait.template timed out".
Proof.
  set (w2 := snd (load_template nesting_engine nesting_fs
                    "/srv/app/views/outer_wait.template" start)).
  set (w3 := snd (load_template nesting_engine nesting_fs
                    "/srv/app/views/wait.template" (next_context w2))).
  assert (Hpath : template_path nesting_engine
            (settings_of nesting_engine start ∅) "outer_wait" =
            Ok ("/srv/app/views/outer_wait.template", "template")) by run.
  assert (Hload : load_template nesting_engine nesting_fs
            "/srv/app/views/outer_wait.template" start = (Loaded, w2)) by run.
  assert (Hentry : file_cache w2 !! "/srv/app/views/outer_wait.template" =
            Some {| mtime := 1700000000000; script := outer_wait_program |})
    by run.
  assert (Hinner_path : template_path nesting_engine
            (settings_of nesting_engine (next_context w2)
               (nested_options ∅ ∅)) "wait" =
            Ok ("/srv/app/views/wait.template", "template")) by run.
  assert (Hinner_load : load_template nesting_engine nesting_fs
            "/srv/app/views/wait.template" (next_context w2) = (Loaded, w3))
    by run.
  assert (Hinner_entry : file_cache w3 !! "/srv/app/views/wait.template" =
            Some {| mtime := 1700000000000; script := Forever |}) by run.
  assert (Hvm : vm_timeout_ok (timeout nesting_engine) = true) by run.
  rewrite (nested_timeout_names_the_outer_template nesting_engine nesting_fs
             0 ∅ ∅ "outer_wait" "wait" _ start w2 w3 (next_context w3)
             _ _ _ _ _ _ Hpath Hload Hentry eq_refl Hinner_path Hinner_load
             Hinner_entry eq_refl Hvm).
  split; reflexivity.
Defined.

(** The value Node shows in the message of the RangeError. *)
Example received_text_examples :
  received_text 0 = "0"
  /\ received_text (-1) = "-1"
  /\ received_text 4294967296 = "4294967296"
  /\ received_text 4294967297 = "4_294_967_297"
  /\ received_text (-123456789012) = "-123_456_789_012"
  /\ err_message (timeout_range_error zero_timeout_engine) =
       "The value of " +:+ QUOTE +:+ "options.timeout" +:+ QUOTE +:+
       " is out of range. It must be >= 1 && <= 4294967295. Received 0".
Proof. repeat split; run. Qed.

(** ** Preloading *)

(** A load of a file that can be read and compiled, with a logger that
    does not throw, resolves and leaves a current entry. *)
Lemma load_template_makes_current (E : Engine) (fs : gmap string File)
    (filepath : string) (w : World) (file : File) (content : string)
    (compiled : tmpl) :
  filepath ∉ held w -> fs !! filepath = Some file ->
  f_content file = Some content ->
  vm_Script E filepath content = Ok compiled ->
  (forall msg, exists v, logger E msg = Ok v) ->
  fst (load_template E fs filepath w) = Loaded
  /\ must_compile (file_cache (snd (load_template E fs filepath w))) filepath
       (f_mtime file) = false.
Proof.
  intros Hfree Hfile Hcontent Hcompiled Hlogger.
  assert (Hloaded : fst (load_template E fs filepath w) = Loaded).
  { unfold load_template. rewrite bool_decide_eq_false_2 by done.
    unfold load_template_body. cbn [file_cache record_event set_held].
    rewrite Hfile.
    destruct (must_compile (file_cache w) filepath (f_mtime file)); [|done].
    rewrite Hcontent, Hcompiled.
    by destruct (Hlogger (load_message (new_template (file_cache w) filepath)
                            filepath)) as [v ->]. }
  split; [done|]. by apply load_template_loaded_entry.
Qed.

Lemma preload_loadable (E : Engine) (fs : gmap string File)
    (names : list string) :
  (forall msg, exists v, logger E msg = Ok v) ->
  forall w : World,
    Forall (loadable E fs w) names ->
    exists w',
      preload E fs names w = Preloaded w'
      /\ held w' = held w
      /\ (forall filepath file c,
            fs !! filepath = Some file ->
            settled_entry filepath (f_mtime file) c w ->
            settled_entry filepath (f_mtime file) c w')
      /\ (forall name file,
            name ∈ names -> fs !! preload_path E name = Some file ->
            must_compile (file_cache w') (preload_path E name) (f_mtime file)
              = false).
Proof.
  intros Hlogger. induction names as [|first rest IH]; intros w Hall.
  - exists w. split; [done|]. split; [done|]. split; [done|].
    intros name file0 Hin. by apply elem_of_nil in Hin.
  - apply Forall_cons in Hall as [Hfirst Hrest].
    destruct Hfirst as (Hfree & file & content & compiled & Hfile & Hcontent
                        & Hcompiled).
    destruct (load_template_makes_current E fs (preload_path E first) w file
                content compiled Hfree Hfile Hcontent Hcompiled Hlogger)
      as [Hloaded Hcurrent].
    pose proof (load_template_held E fs (preload_path E first) w) as Hheld.
    cbn [preload]. fold (preload_path E first).
    destruct (load_template E fs (preload_path E first) w) as [r w1] eqn:Hload.
    simpl in Hloaded, Hcurrent, Hheld. subst r.
    assert (Hrest1 : Forall (loadable E fs w1) rest).
    { eapply Forall_impl; [exact Hrest|]. intros name [Hn Hex].
      split; [by rewrite Hheld|done]. }
    destruct (IH w1 Hrest1) as (w' & Hpre & Hheld' & Hkeep & Hnames).
    exists w'. split; [done|]. split; [by rewrite Hheld'|].
    split.
    + intros filepath file0 c Hfile0 Hentry. apply Hkeep; [done|].
      pose proof (load_template_keeps_entry E fs filepath
                    (preload_path E first) file0 c w Hfile0 Hentry) as Hk.
      by rewrite Hload in Hk.
    + intros name file0 Hin Hfile0.
      destruct (decide (preload_path E name = preload_path E first))
        as [Heq|Hne].
      * rewrite Heq in *. assert (file0 = file) as -> by congruence.
        by destruct (Hkeep (preload_path E first) file _ Hfile
                       (conj Hcurrent eq_refl)).
      * apply elem_of_cons in Hin as [->|Hin]; [done|]. by apply Hnames.
Qed.

(** X15: the templates named in [params.preload] are resolved like the
    names of a render without settings and loaded.  When the file of every
    name can be read and compiled and the logger does not throw, every
    load resolves: the locks are free afterwards and every named template
    has a current entry, so that no render compiles it again while its file
    keeps its modification time.  A load that fails is a rejection that
    nothing handles. *)
Theorem preload_spares_the_first_render (E : Engine) (fs : gmap string File)
    (names : list string) (w : World) :
  Forall (loadable E fs w) names ->
  (forall msg, exists v, logger E msg = Ok v) ->
  (exists w',
     preload E fs names w = Preloaded w'
     /\ held w' = held w
     /\ forall name file,
          name ∈ names -> fs !! preload_path E name = Some file ->
          must_compile (file_cache w') (preload_path E name) (f_mtime file)
            = false
          /\ forall (fuel : nat) (name' : string)
                    (options : gmap string value),
               compiles_of (preload_path E name)
                 (snd (render E fs fuel name' options w')) =
               compiles_of (preload_path E name) w')
  /\ (forall (fs' : gmap string File) name rest e w1,
        load_template E fs' (preload_path E name) w = (Failed e, w1) ->
        preload E fs' (name :: rest) w = Unhandled e w1).
Proof.
  intros Hall Hlogger. split.
  - destruct (preload_loadable E fs names Hlogger w Hall)
      as (w' & Hpre & Hheld & _ & Hnames).
    exists w'. split; [done|]. split; [done|].
    intros name file Hin Hfile.
    pose proof (Hnames name file Hin Hfile) as Hcurrent.
    split; [done|]. intros fuel name' options.
    by destruct (include_keeps_entry E fs (preload_path E name) file _ fuel
                   Hfile name' options None w' (conj Hcurrent eq_refl)).
  - intros fs' name rest e w1 Hload. cbn [preload].
    fold (preload_path E name). by rewrite Hload.
Qed.

Lemma preload_spares_the_first_render_witness :
  Forall (loadable demo_engine demo_fs start) ["parent"; "child"]
  /\ exists w',
       preload demo_engine demo_fs ["parent"; "child"] start = Preloaded w'
       /\ held w' = held start
       /\ compiles_of "/srv/app/views/child.template"
            (snd (render demo_engine demo_fs 2 "parent"
                    {[ "x" := VNumber 0; "y" := VNumber 2 ]} w')) =
          compiles_of "/srv/app/views/child.template" w'.
Proof.
  assert (Hfree : forall p : string, p ∉ held start)
    by (intros p; simpl; apply not_elem_of_empty).
  assert (Hall : Forall (loadable demo_engine demo_fs start)
                   ["parent"; "child"]).
  { repeat constructor; try apply Hfree.
    - exists (demo_file parent_template), parent_template, parent_program.
      repeat split; run.
    - exists (demo_file child_template), child_template, child_program.
      repeat split; run. }
  assert (Hlogger : forall msg, exists v, logger demo_engine msg = Ok v)
    by (intros msg; by eexists).
  assert (Hin : "child" ∈ ["parent"; "child"]) by decided.
  assert (Hfile : demo_fs !! preload_path demo_engine "child" =
                    Some (demo_file child_template)) by run.
  destruct (preload_spares_the_first_render demo_engine demo_fs
              ["parent"; "child"] start Hall Hlogger)
    as [(w' & Hpre & Hheld & Hnames) _].
  split; [exact Hall|]. exists w'. split; [exact Hpre|].
  split; [exact Hheld|].
  destruct (Hnames "child" _ Hin Hfile) as [_ Hrender].
  exact (Hrender 2%nat "parent" {[ "x" := VNumber 0; "y" := VNumber 2 ]}).
Defined.

(** ** Templates that do not compile, and bags that do not mix *)

Lemma settings_of_heap (E : Engine) (w w' : World)
    (options : gmap string value) :
  heap w' = heap w -> settings_of E w' options = settings_of E w options.
Proof. intros Hheap. unfold settings_of. by rewrite Hheap. Qed.

Lemma render_uncompilable (E : Engine) (fs : gmap string File) (n : nat)
    (name : string) (options : gmap string value) (w : World)
    (filepath ext : string) (file : File) (content : string) (e : error) :
  template_path E (settings_of E w options) name = Ok (filepath, ext) ->
  filepath ∉ held w -> fs !! filepath = Some file ->
  f_content file = Some content ->
  vm_Script E filepath content = Thrown e ->
  must_compile (file_cache w) filepath (f_mtime file) = true ->
  fst (render E fs (S n) name options w) = Rejected (normalize E e)
  /\ file_cache (snd (render E fs (S n) name options w)) !! filepath = None
  /\ compiles_of filepath (snd (render E fs (S n) name options w)) =
       S (compiles_of filepath w)
  /\ held (snd (render E fs (S n) name options w)) = held w
  /\ heap (snd (render E fs (S n) name options w)) = heap w.
Proof.
  intros Hpath Hfree Hfile Hcontent Hthrown Hstale.
  unfold render. cbn [include]. rewrite Hpath.
  unfold load_template. rewrite bool_decide_eq_false_2 by done.
  unfold load_template_body. cbn [file_cache record_event set_held].
  rewrite Hfile, Hstale, Hcontent, Hthrown. simpl.
  split; [done|]. split; [apply lookup_delete_eq|]. split.
  - unfold compiles_of. simpl. by rewrite bool_decide_eq_true_2.
  - split; [by apply unlock_after_lock|done].
Qed.

(** X16: a template the compiler refuses is compiled anew by every render:
    the render is rejected with the compiler's error, the path is left
    without an entry, and the render after it, with the files as they are,
    calls the compiler again and is rejected in the same way. *)
Theorem uncompilable_template_is_retried (E : Engine) (fs : gmap string File)
    (n m : nat) (name : string) (options : gmap string value) (w : World)
    (filepath ext : string) (file : File) (content : string) (e : error) :
  template_path E (settings_of E w options) name = Ok (filepath, ext) ->
  filepath ∉ held w -> fs !! filepath = Some file ->
  f_content file = Some content ->
  vm_Script E filepath content = Thrown e ->
  must_compile (file_cache w) filepath (f_mtime file) = true ->
  fst (render E fs (S n) name options w) = Rejected (normalize E e)
  /\ file_cache (snd (render E fs (S n) name options w)) !! filepath = None
  /\ compiles_of filepath (snd (render E fs (S n) name options w)) =
       S (compiles_of filepath w)
  /\ fst (render E fs (S m) name options
            (snd (render E fs (S n) name options w))) =
       Rejected (normalize E e)
  /\ compiles_of filepath
       (snd (render E fs (S m) name options
               (snd (render E fs (S n) name options w)))) =
       S (S (compiles_of filepath w)).
Proof.
  intros Hpath Hfree Hfile Hcontent Hthrown Hstale.
  destruct (render_uncompilable E fs n name options w filepath ext file
              content e Hpath Hfree Hfile Hcontent Hthrown Hstale)
    as (Hrejected & Hnone & Hcount & Hheld & Hheap).
  split; [done|]. split; [done|]. split; [done|].
  set (w1 := snd (render E fs (S n) name options w)) in *.
  assert (Hpath1 : template_path E (settings_of E w1 options) name =
                     Ok (filepath, ext))
    by (by rewrite (settings_of_heap E w w1 options Hheap)).
  assert (Hfree1 : filepath ∉ held w1) by (by rewrite Hheld).
  assert (Hstale1 : must_compile (file_cache w1) filepath (f_mtime file)
                    = true)
    by (unfold must_compile, new_template; by rewrite Hnone).
  destruct (render_uncompilable E fs m name options w1 filepath ext file
              content e Hpath1 Hfree1 Hfile Hcontent Hthrown Hstale1)
    as (Hrejected1 & _ & Hcount1 & _).
  split; [done|]. by rewrite Hcount1, Hcount.
Qed.

Lemma uncompilable_template_is_retried_witness :
  fst (render demo_engine demo_fs 1 "broken" ∅ cached_old) =
    Rejected (normalize demo_engine syntax_error)
  /\ file_cache (snd (render demo_engine demo_fs 1 "broken" ∅ cached_old))
       !! "/srv/app/views/broken.template" = None
  /\ compiles_of "/srv/app/views/broken.template"
       (snd (render demo_engine demo_fs 1 "broken" ∅
               (snd (render demo_engine demo_fs 1 "broken" ∅ cached_old)))) =
     2%nat.
Proof.
  assert (Hpath : template_path demo_engine
            (settings_of demo_engine cached_old ∅) "broken" =
            Ok ("/srv/app/views/broken.template", "template")) by run.
  assert (Hfree : "/srv/app/views/broken.template" ∉ held cached_old)
    by (simpl; apply not_elem_of_empty).
  assert (Hfile : demo_fs !! "/srv/app/views/broken.template" =
                    Some (demo_file broken_template)) by run.
  assert (Hthrown : vm_Script demo_engine "/srv/app/views/broken.template"
                      broken_template = Thrown syntax_error) by run.
  assert (Hstale : must_compile (file_cache cached_old)
                     "/srv/app/views/broken.template"
                     (f_mtime (demo_file broken_template)) = true) by run.
  destruct (uncompilable_template_is_retried demo_engine demo_fs 0 0 "broken"
              ∅ cached_old "/srv/app/views/broken.template" "template"
              (demo_file broken_template) broken_template syntax_error
              Hpath Hfree Hfile eq_refl Hthrown Hstale)
    as (Hrejected & Hnone & _ & _ & Hcount).
  split; [exact Hrejected|]. split; [exact Hnone|]. exact Hcount.
Defined.


